(** * PTS-Const: labour cost, daily reports, category registry, daily batch

    A shallow embedding of the calculation and submission logic of the
    four screens of the labour-tracking UI:

    - [Reports]: [calculateTotalCost] and [groupEntriesByDate] of the
      report screen (ReportsSection);
    - [EntryForm]: [calculateCost] and [saveDaily] of the daily entry form
      (DailyEntryForm);
    - [CategoryManager]: [addCategory] of the category registry editor
      (WorkerCategoryManager.tsx).

    JavaScript numbers are IEEE-754 binary64 values; they are modelled by
    Rocq's primitive [float], whose operations are the binary64 ones.  The
    arithmetic is written once over an interface [Num], so that the same
    program text can also be read over the exact rationals [Qc]: that second
    reading is what the formulas mean when no product or sum is rounded. *)

From Stdlib Require Import List String Ascii Bool.
From Stdlib Require Import Floats QArith Qcanon.
From Stdlib Require Import Permutation Sorted OrderedTypeEx DecimalString.
From Stdlib Require Import Lia.
Import ListNotations.

Set Warnings "-inexact-float".
Local Open Scope string_scope.
Local Open Scope list_scope.

(** ** Numbers *)

(** The operations the screens use on values of type [number]:
    [+], [*], [<=], [>], the literals [0] and [1.5], and the conversion to
    a boolean performed by [||] and [!]. *)
Class Num (N : Type) : Type := {
  nadd : N -> N -> N;
  nmul : N -> N -> N;
  nzero : N;
  lit_1_5 : N;
  nle : N -> N -> bool;
  nlt : N -> N -> bool;
  truthy : N -> bool
}.

Declare Scope num_scope.
Delimit Scope num_scope with num.
Infix "+" := nadd : num_scope.
Infix "*" := nmul : num_scope.

(** [ToBoolean] on a binary64 number: [+0], [-0] and [NaN] are falsy. *)
Definition float_truthy (x : float) : bool :=
  negb (PrimFloat.is_zero x || PrimFloat.is_nan x).

#[export] Instance JSNumber : Num float := {|
  nadd := PrimFloat.add;
  nmul := PrimFloat.mul;
  nzero := 0%float;
  lit_1_5 := 1.5%float;
  nle := PrimFloat.leb;
  nlt := PrimFloat.ltb;
  truthy := float_truthy
|}.

(** Exact arithmetic: the same operations on canonical rationals, where no
    operation rounds. *)
#[export] Instance ExactNumber : Num Qc := {|
  nadd := Qcplus;
  nmul := Qcmult;
  nzero := Q2Qc 0;
  lit_1_5 := Q2Qc (3 # 2);
  nle := fun a b => Qle_bool a b;
  nlt := fun a b => negb (Qle_bool b a);
  truthy := fun a => negb (Qc_eq_bool a (Q2Qc 0))
|}.

(** [x || d] where [x] is an optional number: [undefined] and [null] are
    falsy, a number is falsy as [truthy] says. *)
Definition orDefault {N} `{Num N} (x : option N) (d : N) : N :=
  match x with
  | Some v => if truthy v then v else d
  | None => d
  end.

(** ** Strings *)

(** [s.split(sep)] for a one-character separator: the pieces between the
    occurrences of [sep], never an empty array. *)
Fixpoint split (sep : ascii) (s : string) : list string :=
  match s with
  | EmptyString => [EmptyString]
  | String c rest =>
      if Ascii.eqb c sep then EmptyString :: split sep rest
      else match split sep rest with
           | piece :: pieces => String c piece :: pieces
           | [] => [String c EmptyString]
           end
  end.

(** Index [0] of the array returned by [split]. *)
Definition item0 (pieces : list string) : string := hd EmptyString pieces.

(** [a || b] on strings: the empty string is falsy. *)
Definition orString (a b : string) : string :=
  match a with
  | EmptyString => b
  | _ => a
  end.

(** [a.localeCompare(b)], modelled by the comparison of the character
    codes from left to right.  On ISO dates (decimal digits and hyphens,
    zero padded) the locale collation agrees with it. *)
Definition localeCompare (a b : string) : comparison := String.compare a b.

(** [a] sorts after [b]. *)
Definition after (a b : string) : Prop := localeCompare a b = Gt.

(** The comparator of the report sort, on the dates themselves. *)
Definition descendingCmp (a b : string) : comparison := localeCompare b a.

Definition descending (l : list string) : Prop := StronglySorted after l.

(** ** Arrays *)

Section Sort.
Context {A : Type} (cmp : A -> A -> comparison).

(** [Array.prototype.sort(cmp)] is a stable sort; an insertion sort
    that keeps an element in front of the later elements it compares
    equal to computes the same array. *)
Fixpoint insertSorted (x : A) (l : list A) : list A :=
  match l with
  | [] => [x]
  | y :: l' =>
      match cmp x y with
      | Gt => y :: insertSorted x l'
      | _ => x :: l
      end
  end.

Definition sort (l : list A) : list A := fold_right insertSorted [] l.
End Sort.

(** The keys of an insertion-ordered map filled by a loop: each key once,
    in the order of its first occurrence. *)
Definition addKey (ks : list string) (k : string) : list string :=
  if existsb (String.eqb k) ks then ks else ks ++ [k].

Definition firsts (l : list string) : list string := fold_left addKey l [].

(** ** Report screen *)

Module Reports.
Section WithNumbers.
Context {N : Type} `{Num N}.
Local Open Scope num_scope.

Record Entry : Type := {
  entry_date : string;
  category : string;
  rate : N;
  normal_hours : N;
  overtime_hours : N;
  num_workers : N;
  site_id : string;
  supervisor_email : option string;
  overtime_multiplier : option N
}.

Record CategoryTotal : Type := {
  name : string;
  workers : N;
  cost : N
}.

Record DailyReport : Type := {
  date : string;
  totalWorkers : N;
  totalCost : N;
  entries : list Entry;
  categories : list CategoryTotal
}.

(** The parameter [multiplier] has the default value [1.5]: it is used
    when the argument is [undefined], here [None]. *)
Definition calculateTotalCost
    (rate normalHours overtimeHours : N) (multiplier : option N)
    (workers : N) : N :=
  let multiplier :=
    match multiplier with Some m => m | None => lit_1_5 end in
  let normalCost := rate * normalHours * workers in
  let otCost := rate * overtimeHours * multiplier * workers in
  normalCost + otCost.

(** [entry.entry_date.split("T")[0] || entry.entry_date.split(" ")[0]] *)
Definition dateOnly (entry : Entry) : string :=
  orString (item0 (split "T" (entry_date entry)))
           (item0 (split " " (entry_date entry))).

(** The cost of a persisted entry, as the grouping loop, the spreadsheet
    export and the per-entry cards each compute it:
    [const multiplier = entry.overtime_multiplier || 1.5] followed by the
    call of [calculateTotalCost]. *)
Definition entryTotalCost (entry : Entry) : N :=
  let multiplier := orDefault (overtime_multiplier entry) lit_1_5 in
  calculateTotalCost (rate entry) (normal_hours entry)
    (overtime_hours entry) (Some multiplier) (num_workers entry).

(** The entry with its optional multiplier replaced. *)
Definition withMultiplier (m : option N) (entry : Entry) : Entry :=
  {| entry_date := entry_date entry;
     category := category entry;
     rate := rate entry;
     normal_hours := normal_hours entry;
     overtime_hours := overtime_hours entry;
     num_workers := num_workers entry;
     site_id := site_id entry;
     supervisor_email := supervisor_email entry;
     overtime_multiplier := m |}.

(** [grouped]: an object used as a map from the day to its report.  It is
    kept as an association list in insertion order, which is the order
    [Object.values] enumerates keys that are not array indices; the sort
    that follows returns the same array for every order of enumeration
    ([groupEntriesByDate_any_enumeration]).  A day is taken not to be the
    name of a member of [Object.prototype]. *)
Definition Grouped : Type := list (string * DailyReport).

Fixpoint lookup (key : string) (grouped : Grouped) : option DailyReport :=
  match grouped with
  | [] => None
  | (k, r) :: rest => if String.eqb k key then Some r else lookup key rest
  end.

Fixpoint update (key : string) (f : DailyReport -> DailyReport)
    (grouped : Grouped) : Grouped :=
  match grouped with
  | [] => []
  | (k, r) :: rest =>
      if String.eqb k key then (k, f r) :: rest
      else (k, r) :: update key f rest
  end.

(** [existing.workers += ...; existing.cost += ...] on the first subtotal
    that [find] returns for the category name. *)
Fixpoint bumpCategory (cat : string) (w c : N)
    (cats : list CategoryTotal) : list CategoryTotal :=
  match cats with
  | [] => []
  | x :: rest =>
      if String.eqb (name x) cat
      then {| name := name x; workers := workers x + w; cost := cost x + c |}
           :: rest
      else x :: bumpCategory cat w c rest
  end.

Definition addCategoryTotal (entry : Entry) (total : N)
    (cats : list CategoryTotal) : list CategoryTotal :=
  match find (fun c => String.eqb (name c) (category entry)) cats with
  | Some _ => bumpCategory (category entry) (num_workers entry) total cats
  | None =>
      cats ++ [{| name := category entry;
                  workers := num_workers entry;
                  cost := total |}]
  end.

Definition emptyReport (day : string) : DailyReport :=
  {| date := day; totalWorkers := nzero; totalCost := nzero;
     entries := []; categories := [] |}.

Definition addToReport (entry : Entry) (total : N)
    (r : DailyReport) : DailyReport :=
  {| date := date r;
     totalWorkers := totalWorkers r + num_workers entry;
     totalCost := totalCost r + total;
     entries := entries r ++ [entry];
     categories := addCategoryTotal entry total (categories r) |}.

(** One iteration of the loop over the entries. *)
Definition groupStep (grouped : Grouped) (entry : Entry) : Grouped :=
  let day := dateOnly entry in
  let total := entryTotalCost entry in
  let grouped :=
    match lookup day grouped with
    | None => grouped ++ [(day, emptyReport day)]
    | Some _ => grouped
    end in
  update day (addToReport entry total) grouped.

Definition groupLoop (entries : list Entry) : Grouped :=
  fold_left groupStep entries [].

(** The comparator [(a, b) => b.date.localeCompare(a.date)]. *)
Definition byDateDescending (a b : DailyReport) : comparison :=
  localeCompare (date b) (date a).

Definition groupEntriesByDate (entries : list Entry) : list DailyReport :=
  sort byDateDescending (map snd (groupLoop entries)).

End WithNumbers.
Arguments Entry N : clear implicits.
Arguments CategoryTotal N : clear implicits.
Arguments DailyReport N : clear implicits.
End Reports.

(** ** The reports, day by day

    What [groupEntriesByDate] computes, written without the loop over the
    map: the entries of each day folded into its report, and the subtotals
    of a day as sums over the entries of each category. *)

Module ByDay.
Section WithNumbers.
Context {N : Type} `{Num N}.
Import Reports.
Local Open Scope num_scope.

(** The entries of a day, in the order of the collection. *)
Definition dayEntries (day : string) (l : list (Entry N)) : list (Entry N) :=
  filter (fun e => String.eqb (dateOnly e) day) l.

(** The report of a day after its entries were added one by one. *)
Definition accumulate (r : DailyReport N) (es : list (Entry N))
    : DailyReport N :=
  fold_left (fun r e => addToReport e (entryTotalCost e) r) es r.

Definition reportOf (day : string) (l : list (Entry N)) : DailyReport N :=
  accumulate (emptyReport day) (dayEntries day l).

Definition days (l : list (Entry N)) : list string :=
  firsts (map dateOnly l).

(** The sum of a non-empty list, from its first element on. *)
Definition sum1 (l : list N) : N :=
  match l with
  | [] => nzero
  | x :: xs => fold_left nadd xs x
  end.

Definition catEntries (cat : string) (es : list (Entry N)) : list (Entry N) :=
  filter (fun e => String.eqb (category e) cat) es.

Definition catTotalOf (cat : string) (es : list (Entry N)) : CategoryTotal N :=
  {| name := cat;
     workers := sum1 (map num_workers (catEntries cat es));
     cost := sum1 (map entryTotalCost (catEntries cat es)) |}.

Definition catTotals (es : list (Entry N)) : list (CategoryTotal N) :=
  fold_left (fun cs e => addCategoryTotal e (entryTotalCost e) cs) es [].

(** What a report shows of a day apart from the list of its entries. *)
Definition figures (r : DailyReport N)
    : string * N * N * list (CategoryTotal N) :=
  (date r, totalWorkers r, totalCost r, categories r).

(** Two entries that the loop cannot tell apart: same day, same category,
    same number of workers, same cost. *)
Definition sameCosting (e1 e2 : Entry N) : Prop :=
  dateOnly e1 = dateOnly e2
  /\ category e1 = category e2
  /\ num_workers e1 = num_workers e2
  /\ entryTotalCost e1 = entryTotalCost e2.

End WithNumbers.
End ByDay.

(** The sum of a list of rationals. *)
Definition sumQc (l : list Qc) : Qc := fold_right Qcplus 0 l.

(** ** Collaborators shared by the screens *)

(** A notification shown through [toast({ title, description, variant })];
    [destructive] is the variant of an error message. *)
Record Toast : Type := {
  title : string;
  description : string;
  destructive : bool
}.

(** The [error] field of a response of the hosted store or of the
    authentication provider. *)
Record ApiError : Type := { message : string }.

(** The reference list of worker categories; the entry form and the
    category manager declare the same interface. *)
Module Category.
Record WorkerCategory (N : Type) : Type := {
  id : string;
  name : string;
  short_code : string;
  hourly_rate : N;
  overtime_multiplier : N;
  is_active : bool
}.
End Category.

(** Decimal rendering of a length inside a template string. *)
Definition showNat (n : nat) : string :=
  NilEmpty.string_of_uint (Nat.to_uint n).

(** ** Daily entry form *)

Module EntryForm.
Section WithNumbers.
Context {N : Type} `{Num N}.
Local Open Scope num_scope.

Definition calculateCost
    (normalHours overtimeHours workerCount hourlyRate
     overtimeMultiplier : N) : N :=
  let normalCost := normalHours * hourlyRate in
  let overtimeCost := overtimeHours * hourlyRate * overtimeMultiplier in
  (normalCost + overtimeCost) * workerCount.

Record WorkerEntry : Type := {
  id : string;
  category : string;
  normalHours : N;
  overtimeHours : N;
  workerCount : N;
  rate : N;
  totalCost : N
}.

(** The line item being edited ([currentEntry]); its fields carry a
    prefix, their names being those of the fields of [WorkerEntry]. *)
Record CurrentEntry : Type := {
  cur_category : string;
  cur_normalHours : N;
  cur_overtimeHours : N;
  cur_workerCount : N
}.

(** The state variables of the component. *)
Record State : Type := {
  workerCategories : list (Category.WorkerCategory N);
  selectedDate : string;
  siteId : string;
  entries : list WorkerEntry;
  currentEntry : CurrentEntry
}.

(** The identity returned by "get current user". *)
Record User : Type := {
  user_id : string;
  user_email : option string
}.

Record AuthResponse : Type := {
  user : option User;
  userError : option ApiError
}.

(** A row of the table [daily_entries] as [saveDaily] formats it (the
    columns [category] and [rate] carry a prefix here, the names being
    those of the fields of [WorkerEntry]). *)
Record Row : Type := {
  entry_date : string;
  site_id : string;
  supervisor_id : string;
  supervisor_email : option string;
  row_category : string;
  row_rate : N;
  normal_hours : N;
  overtime_hours : N;
  num_workers : N;
  total_cost : N
}.

(** What the collaborators answer during one call of [saveDaily]: the
    authentication provider to [auth.getUser()], the entry store to
    [insert(rows)] ([None]: no error). *)
Record Backend : Type := {
  getUser : AuthResponse;
  insert : list Row -> option ApiError
}.

(** What [saveDaily] does to the outside, in order. *)
Inductive Event : Type :=
| Notify (t : Toast)
| AuthGetUser
| InsertDailyEntries (rows : list Row).

(** The session is valid when the provider reports no error and returns
    a user. *)
Definition authenticated (backend : Backend) : bool :=
  match userError (getUser backend), user (getUser backend) with
  | None, Some _ => true
  | _, _ => false
  end.

Definition formatRow (st : State) (u : User) (entry : WorkerEntry) : Row :=
  {| entry_date := selectedDate st;
     site_id := siteId st;
     supervisor_id := user_id u;
     supervisor_email := user_email u;
     row_category := category entry;
     row_rate := rate entry;
     normal_hours := normalHours entry;
     overtime_hours := overtimeHours entry;
     num_workers := workerCount entry;
     total_cost := totalCost entry |}.

(** [saveDaily]: the state of the component after the call and the
    events of the call. *)
Definition saveDaily (backend : Backend) (st : State)
    : State * list Event :=
  match siteId st with
  | EmptyString =>
      (st, [Notify {| title := "Site not selected";
                      description := "Please select a site.";
                      destructive := true |}])
  | _ =>
  match entries st with
  | [] =>
      (st, [Notify {| title := "No entries";
                      description := "Add at least one entry before saving.";
                      destructive := true |}])
  | _ =>
  match userError (getUser backend), user (getUser backend) with
  | None, Some u =>
      let formattedRows := map (formatRow st u) (entries st) in
      match insert backend formattedRows with
      | Some error =>
          (st, [AuthGetUser; InsertDailyEntries formattedRows;
                Notify {| title := "Save failed";
                          description := message error;
                          destructive := true |}])
      | None =>
          ({| workerCategories := workerCategories st;
              selectedDate := selectedDate st;
              siteId := siteId st;
              entries := [];
              currentEntry := currentEntry st |},
           [AuthGetUser; InsertDailyEntries formattedRows;
            Notify {| title := "Entries saved";
                      description :=
                        (showNat (List.length formattedRows)
                         ++ " entries saved for " ++ selectedDate st)%string;
                      destructive := false |}])
      end
  | _, _ =>
      (st, [AuthGetUser;
            Notify {| title := "User not authenticated";
                      description := "Please log in to submit entries.";
                      destructive := true |}])
  end
  end
  end.

(** The rows a call tried to write. *)
Definition writes (events : list Event) : list (list Row) :=
  flat_map (fun e => match e with
                     | InsertDailyEntries rows => [rows]
                     | _ => []
                     end) events.

Definition notifications (events : list Event) : list Toast :=
  flat_map (fun e => match e with Notify t => [t] | _ => [] end) events.

End WithNumbers.
Arguments WorkerEntry N : clear implicits.
Arguments CurrentEntry N : clear implicits.
Arguments State N : clear implicits.
Arguments Row N : clear implicits.
Arguments Backend N : clear implicits.
Arguments Event N : clear implicits.
End EntryForm.

(** ** Category registry editor *)

Module CategoryManager.
Section WithNumbers.
Context {N : Type} `{Num N}.

(** The draft of the category to create ([newCategory]). *)
Record NewCategory : Type := {
  name : string;
  short_code : string;
  hourly_rate : N;
  overtime_multiplier : N
}.

Record State : Type := {
  categories : list (Category.WorkerCategory N);
  newCategory : NewCategory;
  editingId : option string
}.

(** The row [addCategory] inserts into [worker_categories]. *)
Record Row : Type := {
  row_name : string;
  row_short_code : string;
  row_hourly_rate : N;
  row_overtime_multiplier : N;
  row_is_active : bool
}.

(** The answer of the category store to [insert([row])]. *)
Definition Backend : Type := list Row -> option ApiError.

Inductive Event : Type :=
| Notify (t : Toast)
| InsertWorkerCategories (rows : list Row)
| FetchCategories.

Definition emptyDraft : NewCategory :=
  {| name := ""; short_code := ""; hourly_rate := nzero;
     overtime_multiplier := lit_1_5 |}.

Definition initialState : State :=
  {| categories := []; newCategory := emptyDraft; editingId := None |}.

Definition setNewCategory (draft : NewCategory) (st : State) : State :=
  {| categories := categories st; newCategory := draft;
     editingId := editingId st |}.

(** The [onChange] handlers of the three inputs of the draft.  The rate
    handler receives the result of [parseFloat(e.target.value)] and stores
    [parseFloat(e.target.value) || 0]. *)
Definition onNameChange (value : string) (st : State) : State :=
  setNewCategory
    {| name := value;
       short_code := short_code (newCategory st);
       hourly_rate := hourly_rate (newCategory st);
       overtime_multiplier := overtime_multiplier (newCategory st) |} st.

Definition onShortCodeChange (value : string) (st : State) : State :=
  setNewCategory
    {| name := name (newCategory st);
       short_code := value;
       hourly_rate := hourly_rate (newCategory st);
       overtime_multiplier := overtime_multiplier (newCategory st) |} st.

Definition onHourlyRateChange (parsed : N) (st : State) : State :=
  setNewCategory
    {| name := name (newCategory st);
       short_code := short_code (newCategory st);
       hourly_rate := orDefault (Some parsed) nzero;
       overtime_multiplier := overtime_multiplier (newCategory st) |} st.

Definition setCategories (data : list (Category.WorkerCategory N))
    (st : State) : State :=
  {| categories := data; newCategory := newCategory st;
     editingId := editingId st |}.

Definition setEditingId (value : option string) (st : State) : State :=
  {| categories := categories st; newCategory := newCategory st;
     editingId := value |}.

(** [!name || !short_code || hourly_rate <= 0] *)
Definition draftRejected (draft : NewCategory) : bool :=
  match name draft with EmptyString => true | _ => false end
  || match short_code draft with EmptyString => true | _ => false end
  || nle (hourly_rate draft) nzero.

Definition validationToast : Toast :=
  {| title := "Validation Error"; description := "Fill all fields";
     destructive := true |}.

Definition addCategory (backend : Backend) (st : State)
    : State * list Event :=
  let draft := newCategory st in
  if draftRejected draft then (st, [Notify validationToast])
  else
    let rows := [{| row_name := name draft;
                    row_short_code := short_code draft;
                    row_hourly_rate := hourly_rate draft;
                    row_overtime_multiplier := overtime_multiplier draft;
                    row_is_active := true |}] in
    match backend rows with
    | Some error =>
        (st, [InsertWorkerCategories rows;
              Notify {| title := "Error"; description := message error;
                        destructive := true |}])
    | None =>
        (setNewCategory emptyDraft st,
         [InsertWorkerCategories rows;
          Notify {| title := "Success";
                    description := "Category added successfully";
                    destructive := false |};
          FetchCategories])
    end.

(** The states the component can be in: the initial one and those the
    handlers lead to. *)
Inductive Reachable : State -> Prop :=
| reach_initial : Reachable initialState
| reach_name v st : Reachable st -> Reachable (onNameChange v st)
| reach_short_code v st : Reachable st -> Reachable (onShortCodeChange v st)
| reach_hourly_rate parsed st :
    Reachable st -> Reachable (onHourlyRateChange parsed st)
| reach_categories data st : Reachable st -> Reachable (setCategories data st)
| reach_editing v st : Reachable st -> Reachable (setEditingId v st)
| reach_addCategory backend st :
    Reachable st -> Reachable (fst (addCategory backend st)).

(** The requirement on a draft in the words of the registry's contract:
    a name, a short code and a strictly positive hourly rate. *)
Definition wellFormedDraft (draft : NewCategory) : bool :=
  negb (String.eqb (name draft) "")
  && negb (String.eqb (short_code draft) "")
  && nlt nzero (hourly_rate draft).

Definition inserts (events : list Event) : list (list Row) :=
  flat_map (fun e => match e with
                     | InsertWorkerCategories rows => [rows]
                     | _ => []
                     end) events.

End WithNumbers.
Arguments NewCategory N : clear implicits.
Arguments State N : clear implicits.
Arguments Row N : clear implicits.
Arguments Backend N : clear implicits.
Arguments Event N : clear implicits.
End CategoryManager.

(** ** More of the three screens

    The rest of the report screen (the fetch and the spreadsheet export),
    of the entry form (the draft list and its running totals) and of the
    category manager (edits of existing categories). *)

Arguments Category.id {N} _.
Arguments Category.name {N} _.
Arguments Category.short_code {N} _.
Arguments Category.hourly_rate {N} _.
Arguments Category.overtime_multiplier {N} _.
Arguments Category.is_active {N} _.

(** The literals [1] and [8] of the entry form and of the daily rate. *)
Class NumLiterals (N : Type) : Type := {
  lit_1 : N;
  lit_8 : N
}.

#[export] Instance JSLiterals : NumLiterals float := {|
  lit_1 := 1%float;
  lit_8 := 8%float
|}.

#[export] Instance ExactLiterals : NumLiterals Qc := {|
  lit_1 := Q2Qc 1;
  lit_8 := Q2Qc 8
|}.

(** [a || b] where [a] is an optional string: [undefined], [null] and the
    empty string are falsy. *)
Definition orText (a : option string) (b : string) : string :=
  match a with
  | Some (String c rest) => String c rest
  | _ => b
  end.

(** The entry with its stored date replaced. *)
Definition withDate {N : Type} (stored : string) (entry : Reports.Entry N)
    : Reports.Entry N :=
  {| Reports.entry_date := stored;
     Reports.category := Reports.category entry;
     Reports.rate := Reports.rate entry;
     Reports.normal_hours := Reports.normal_hours entry;
     Reports.overtime_hours := Reports.overtime_hours entry;
     Reports.num_workers := Reports.num_workers entry;
     Reports.site_id := Reports.site_id entry;
     Reports.supervisor_email := Reports.supervisor_email entry;
     Reports.overtime_multiplier := Reports.overtime_multiplier entry |}.

(** *** Report screen: fetch and export *)

Module ReportsScreen.
Section WithNumbers.
Context {N : Type} `{Num N}.
Import Reports.

(** The state variables of the component. *)
Record State : Type := {
  reportData : list (DailyReport N);
  loading : bool;
  siteId : string;
  startDate : string;
  endDate : string
}.

(** The query [fetchData] builds on the table [daily_entries]: the range
    on [entry_date], and the equality on [site_id] when a site is
    chosen. *)
Record Query : Type := {
  gte_entry_date : string;
  lte_entry_date : string;
  eq_site_id : option string
}.

(** What awaiting the query gives: an exception, or an answer with its
    [data] ([None]: [null]) and its [error]. *)
Inductive Outcome : Type :=
| Threw
| Answered (data : option (list (Entry N))) (error : option ApiError).

Inductive Event : Type :=
| Select (q : Query)
| Notify (t : Toast).

Definition buildQuery (st : State) : Query :=
  {| gte_entry_date := startDate st;
     lte_entry_date := endDate st;
     eq_site_id :=
       if String.eqb (siteId st) "all" then None else Some (siteId st) |}.

Definition setReportData (grouped : list (DailyReport N)) (st : State)
    : State :=
  {| reportData := grouped; loading := loading st; siteId := siteId st;
     startDate := startDate st; endDate := endDate st |}.

Definition setLoading (value : bool) (st : State) : State :=
  {| reportData := reportData st; loading := value; siteId := siteId st;
     startDate := startDate st; endDate := endDate st |}.

(** [fetchData]: [setLoading(true)], the [try] block with its early
    [return] on an error, the [catch] and the [finally]. *)
Definition fetchData (store : Query -> Outcome) (st : State)
    : State * list Event :=
  let st := setLoading true st in
  let query := buildQuery st in
  match store query with
  | Answered _ (Some error) =>
      (setLoading false st,
       [Select query;
        Notify {| title := "Error fetching data";
                  description := message error;
                  destructive := true |}])
  | Answered data None =>
      let grouped :=
        groupEntriesByDate (match data with Some d => d | None => [] end) in
      (setLoading false (setReportData grouped st),
       [Select query;
        Notify {| title := "Report Loaded";
                  description :=
                    (showNat (List.length grouped)
                     ++ " day(s) of data loaded")%string;
                  destructive := false |}])
  | Threw =>
      (setLoading false st,
       [Select query;
        Notify {| title := "Unexpected Error";
                  description := "Something went wrong while fetching data.";
                  destructive := true |}])
  end.

(** A record of the sheet "Report" of [Site_Report.xlsx]. *)
Record SheetRow : Type := {
  Date : string;
  Site : string;
  Category : string;
  Workers : N;
  Cost : N;
  Supervisor : string
}.

(** [Math.round], a function of the language. *)
Variable round : N -> N.

Definition sheetRow (day : string) (entry : Entry N) : SheetRow :=
  {| Date := day;
     Site := site_id entry;
     Category := category entry;
     Workers := num_workers entry;
     Cost := round (entryTotalCost entry);
     Supervisor := orText (supervisor_email entry) "Unknown" |}.

(** The rows [downloadExcel] hands to the spreadsheet library. *)
Definition downloadExcel (reportData : list (DailyReport N))
    : list SheetRow :=
  flat_map (fun report => map (sheetRow (date report)) (entries report))
    reportData.

End WithNumbers.
Arguments State N : clear implicits.
Arguments Query : clear implicits.
Arguments Outcome N : clear implicits.
Arguments Event : clear implicits.
Arguments SheetRow N : clear implicits.
End ReportsScreen.

(** *** Entry form: the draft list *)

Module DraftSession.
Section WithNumbers.
Context {N : Type} `{Num N} `{NumLiterals N}.
Import EntryForm.
Local Open Scope num_scope.

(** [currentEntry] as the form resets it. *)
Definition blankEntry : CurrentEntry N :=
  {| cur_category := ""; cur_normalHours := lit_8;
     cur_overtimeHours := nzero; cur_workerCount := lit_1 |}.

(** The state at mount; [today] is
    [new Date().toISOString().split("T")[0]]. *)
Definition initialState (today : string) : State N :=
  {| workerCategories := []; selectedDate := today; siteId := "";
     entries := []; currentEntry := blankEntry |}.

Definition setEntries (value : list (WorkerEntry N)) (st : State N)
    : State N :=
  {| workerCategories := workerCategories st;
     selectedDate := selectedDate st; siteId := siteId st;
     entries := value; currentEntry := currentEntry st |}.

Definition setCurrentEntry (value : CurrentEntry N) (st : State N)
    : State N :=
  {| workerCategories := workerCategories st;
     selectedDate := selectedDate st; siteId := siteId st;
     entries := entries st; currentEntry := value |}.

Definition setWorkerCategories
    (data : list (Category.WorkerCategory N)) (st : State N) : State N :=
  {| workerCategories := data;
     selectedDate := selectedDate st; siteId := siteId st;
     entries := entries st; currentEntry := currentEntry st |}.

Definition setSelectedDate (value : string) (st : State N) : State N :=
  {| workerCategories := workerCategories st;
     selectedDate := value; siteId := siteId st;
     entries := entries st; currentEntry := currentEntry st |}.

Definition setSiteId (value : string) (st : State N) : State N :=
  {| workerCategories := workerCategories st;
     selectedDate := selectedDate st; siteId := value;
     entries := entries st; currentEntry := currentEntry st |}.

(** The [onChange] handlers of the line being edited; the number inputs
    receive the result of [parseInt(e.target.value)] and store
    [parseInt(..) || 0], for the worker count [parseInt(..) || 1]. *)
Definition onCategoryChange (value : string) (st : State N) : State N :=
  setCurrentEntry
    {| cur_category := value;
       cur_normalHours := cur_normalHours (currentEntry st);
       cur_overtimeHours := cur_overtimeHours (currentEntry st);
       cur_workerCount := cur_workerCount (currentEntry st) |} st.

Definition onNormalHoursChange (parsed : N) (st : State N) : State N :=
  setCurrentEntry
    {| cur_category := cur_category (currentEntry st);
       cur_normalHours := orDefault (Some parsed) nzero;
       cur_overtimeHours := cur_overtimeHours (currentEntry st);
       cur_workerCount := cur_workerCount (currentEntry st) |} st.

Definition onOvertimeHoursChange (parsed : N) (st : State N) : State N :=
  setCurrentEntry
    {| cur_category := cur_category (currentEntry st);
       cur_normalHours := cur_normalHours (currentEntry st);
       cur_overtimeHours := orDefault (Some parsed) nzero;
       cur_workerCount := cur_workerCount (currentEntry st) |} st.

Definition onWorkerCountChange (parsed : N) (st : State N) : State N :=
  setCurrentEntry
    {| cur_category := cur_category (currentEntry st);
       cur_normalHours := cur_normalHours (currentEntry st);
       cur_overtimeHours := cur_overtimeHours (currentEntry st);
       cur_workerCount := orDefault (Some parsed) lit_1 |} st.

(** The answer of the category store to the fetch at mount: an error
    shows a notification, the data replace [workerCategories]. *)
Definition onCategoriesFetched
    (data : list (Category.WorkerCategory N)) (error : option ApiError)
    (st : State N) : State N * list (Event N) :=
  match error with
  | Some e =>
      (st, [Notify {| title := "Error fetching categories";
                      description := message e;
                      destructive := true |}])
  | None => (setWorkerCategories data st, [])
  end.

(** The draft [addEntry] builds from the selected category. *)
Definition newEntry (now : string) (cur : CurrentEntry N)
    (selected : Category.WorkerCategory N) : WorkerEntry N :=
  {| id := now;
     category :=
       (Category.name selected ++ " (" ++ Category.short_code selected
        ++ ")")%string;
     normalHours := cur_normalHours cur;
     overtimeHours := cur_overtimeHours cur;
     workerCount := cur_workerCount cur;
     rate := Category.hourly_rate selected;
     totalCost :=
       calculateCost (cur_normalHours cur) (cur_overtimeHours cur)
         (cur_workerCount cur) (Category.hourly_rate selected)
         (Category.overtime_multiplier selected) |}.

(** [addEntry]; [now] is [Date.now().toString()]. *)
Definition addEntry (now : string) (st : State N)
    : State N * list (Event N) :=
  let cur := currentEntry st in
  match cur_category cur with
  | EmptyString =>
      (st, [Notify {| title := "Category required";
                      description := "Please select a worker category.";
                      destructive := true |}])
  | _ =>
      match find (fun cat => String.eqb (Category.id cat) (cur_category cur))
              (workerCategories st) with
      | None => (st, [])
      | Some selected =>
          (setCurrentEntry blankEntry
             (setEntries (entries st ++ [newEntry now cur selected]) st),
           [Notify {| title := "Entry added";
                      description :=
                        (Category.name selected ++ " workers added.")%string;
                      destructive := false |}])
      end
  end.

Definition removeEntry (target : string) (st : State N) : State N :=
  setEntries
    (filter (fun e => negb (String.eqb (id e) target)) (entries st)) st.

(** The running totals under the draft list. *)
Definition totalWorkers (st : State N) : N :=
  fold_left (fun sum e => sum + workerCount e) (entries st) nzero.

Definition totalCost (st : State N) : N :=
  fold_left (fun sum e => sum + EntryForm.totalCost e) (entries st) nzero.

(** The states of the form: the one at mount and those the handlers and
    the calls lead to. *)
Inductive Reachable : State N -> Prop :=
| reach_mount today : Reachable (initialState today)
| reach_date v st : Reachable st -> Reachable (setSelectedDate v st)
| reach_site v st : Reachable st -> Reachable (setSiteId v st)
| reach_category v st : Reachable st -> Reachable (onCategoryChange v st)
| reach_normal parsed st :
    Reachable st -> Reachable (onNormalHoursChange parsed st)
| reach_overtime parsed st :
    Reachable st -> Reachable (onOvertimeHoursChange parsed st)
| reach_workers parsed st :
    Reachable st -> Reachable (onWorkerCountChange parsed st)
| reach_fetched data error st :
    Reachable st -> Reachable (fst (onCategoriesFetched data error st))
| reach_add now st : Reachable st -> Reachable (fst (addEntry now st))
| reach_remove target st : Reachable st -> Reachable (removeEntry target st)
| reach_save backend st :
    Reachable st -> Reachable (fst (saveDaily backend st)).

(** A saved row as the report screen reads it back.  [saveDaily] writes
    no multiplier; [stored_multiplier] is what the store answers for that
    column. *)
Definition asEntry (stored_multiplier : option N) (row : Row N)
    : Reports.Entry N :=
  {| Reports.entry_date := entry_date row;
     Reports.category := row_category row;
     Reports.rate := row_rate row;
     Reports.normal_hours := normal_hours row;
     Reports.overtime_hours := overtime_hours row;
     Reports.num_workers := num_workers row;
     Reports.site_id := site_id row;
     Reports.supervisor_email := supervisor_email row;
     Reports.overtime_multiplier := stored_multiplier |}.

End WithNumbers.
End DraftSession.

(** *** Category manager: edits *)

Module CategoryEdit.
Section WithNumbers.
Context {N : Type} `{Num N} `{NumLiterals N}.
Import CategoryManager.
Local Open Scope num_scope.

(** The fields an update may carry ([Partial<WorkerCategory>]), as the
    component uses it. *)
Record Updates : Type := {
  set_hourly_rate : option N;
  set_overtime_multiplier : option N;
  set_is_active : option bool
}.

Inductive Event : Type :=
| Notify (t : Toast)
| UpdateWorkerCategory (target : string) (updates : Updates)
| FetchCategories
| SignOut
| Navigate (path : string).

(** The answer of the category store to [update(updates).eq("id", id)]. *)
Definition Backend : Type := string -> Updates -> option ApiError.

Definition updateCategory (backend : Backend) (target : string)
    (updates : Updates) (st : State N) : State N * list Event :=
  match backend target updates with
  | Some error =>
      (st, [UpdateWorkerCategory target updates;
            Notify {| title := "Update Error"; description := message error;
                      destructive := true |}])
  | None =>
      (setEditingId None st,
       [UpdateWorkerCategory target updates;
        Notify {| title := "Updated"; description := "Category updated";
                  destructive := false |};
        FetchCategories])
  end.

Definition toggleActive (backend : Backend) (target : string)
    (current : bool) (st : State N) : State N * list Event :=
  updateCategory backend target
    {| set_hourly_rate := None; set_overtime_multiplier := None;
       set_is_active := Some (negb current) |} st.

Definition calculateDailyRate (hourlyRate : N) : N := hourlyRate * lit_8.

(** The [onChange] handlers of the two inputs of a category in edit
    mode: [updateCategory(id, { hourly_rate: parseFloat(..) || 0 })] and
    [updateCategory(id, { overtime_multiplier: parseFloat(..) || 1.5 })]. *)
Definition onEditHourlyRate (backend : Backend) (target : string)
    (parsed : N) (st : State N) : State N * list Event :=
  updateCategory backend target
    {| set_hourly_rate := Some (orDefault (Some parsed) nzero);
       set_overtime_multiplier := None; set_is_active := None |} st.

Definition onEditMultiplier (backend : Backend) (target : string)
    (parsed : N) (st : State N) : State N * list Event :=
  updateCategory backend target
    {| set_hourly_rate := None;
       set_overtime_multiplier := Some (orDefault (Some parsed) lit_1_5);
       set_is_active := None |} st.

(** The button "Edit" / "Cancel" of a category. *)
Definition onEditClick (target : string) (st : State N) : State N :=
  setEditingId
    (match editingId st with
     | Some current =>
         if String.eqb current target then None else Some target
     | None => Some target
     end) st.

(** The answer to [fetchCategories]. *)
Definition onCategoriesFetched
    (data : list (Category.WorkerCategory N)) (error : option ApiError)
    (st : State N) : State N * list Event :=
  match error with
  | Some e =>
      (st, [Notify {| title := "Error fetching categories";
                      description := message e;
                      destructive := true |}])
  | None => (setCategories data st, [])
  end.

Definition logout : list Event :=
  [SignOut;
   Notify {| title := "Logged out";
             description := "You have been logged out successfully.";
             destructive := false |};
   Navigate "/login"].

Definition updatesSent (events : list Event) : list (string * Updates) :=
  flat_map (fun e => match e with
                     | UpdateWorkerCategory target updates =>
                         [(target, updates)]
                     | _ => []
                     end) events.

End WithNumbers.
Arguments Updates N : clear implicits.
Arguments Event N : clear implicits.
Arguments Backend N : clear implicits.
End CategoryEdit.

(** ** Sample data *)

Definition sampleEntry (stored_date : string) : Reports.Entry float :=
  {| Reports.entry_date := stored_date; Reports.category := "Mason";
     Reports.rate := 100%float; Reports.normal_hours := 8%float;
     Reports.overtime_hours := 2%float; Reports.num_workers := 3%float;
     Reports.site_id := "site1"; Reports.supervisor_email := None;
     Reports.overtime_multiplier := Some 1.5%float |}.

(** An entry in exact arithmetic. *)
Definition exactEntry (stored_date cat : string) (hourly : Qc)
    : Reports.Entry Qc :=
  {| Reports.entry_date := stored_date; Reports.category := cat;
     Reports.rate := hourly; Reports.normal_hours := Q2Qc 8;
     Reports.overtime_hours := Q2Qc 2; Reports.num_workers := Q2Qc 3;
     Reports.site_id := "site1"; Reports.supervisor_email := None;
     Reports.overtime_multiplier := None |}.

Definition sampleUser : EntryForm.User :=
  {| EntryForm.user_id := "user-1";
     EntryForm.user_email := Some "supervisor@example.com" |}.

(** Collaborators that answer without an error. *)
Definition sampleBackend : EntryForm.Backend float :=
  {| EntryForm.getUser :=
       {| EntryForm.user := Some sampleUser; EntryForm.userError := None |};
     EntryForm.insert := fun _ => None |}.

(** The entry form with a site chosen and the given draft list. *)
Definition sampleForm (drafts : list (EntryForm.WorkerEntry float))
    : EntryForm.State float :=
  {| EntryForm.workerCategories := [];
     EntryForm.selectedDate := "2025-06-01";
     EntryForm.siteId := "site1";
     EntryForm.entries := drafts;
     EntryForm.currentEntry :=
       {| EntryForm.cur_category := ""; EntryForm.cur_normalHours := 8%float;
          EntryForm.cur_overtimeHours := 0%float;
          EntryForm.cur_workerCount := 1%float |} |}.

Definition sampleDraft : EntryForm.WorkerEntry float :=
  {| EntryForm.id := "1748772000000"; EntryForm.category := "Mason (M)";
     EntryForm.normalHours := 8%float; EntryForm.overtimeHours := 2%float;
     EntryForm.workerCount := 3%float; EntryForm.rate := 100%float;
     EntryForm.totalCost := 3300%float |}.

(** The category manager after the user typed a name, a short code and
    the hourly rate 0. *)
Definition zeroRateDraft : CategoryManager.State float :=
  CategoryManager.onHourlyRateChange 0%float
    (CategoryManager.onShortCodeChange "M"
       (CategoryManager.onNameChange "Mason" CategoryManager.initialState)).

(** The category manager after the user typed a name, a short code and
    the hourly rate 100. *)
Definition masonDraft : CategoryManager.State float :=
  CategoryManager.onHourlyRateChange 100%float
    (CategoryManager.onShortCodeChange "M"
       (CategoryManager.onNameChange "Mason" CategoryManager.initialState)).

Definition masonCategory : Category.WorkerCategory float :=
  {| Category.id := "cat-1"; Category.name := "Mason";
     Category.short_code := "M"; Category.hourly_rate := 100%float;
     Category.overtime_multiplier := 2%float; Category.is_active := true |}.

(** The entry form after the categories arrived and the user chose the
    category [chosen], 2 overtime hours and 3 workers. *)
Definition formWith (chosen : string) : EntryForm.State float :=
  DraftSession.onWorkerCountChange 3%float
    (DraftSession.onOvertimeHoursChange 2%float
       (DraftSession.onCategoryChange chosen
          (fst (DraftSession.onCategoriesFetched [masonCategory] None
                  (DraftSession.initialState "2025-06-01"))))).

(** Two binary64 numbers are different when evaluating them shows that
    only one is equal to [v]. *)
Ltac floats_differ v :=
  let E := fresh "E" in
  intro E;
  apply (f_equal (fun x => PrimFloat.eqb x v)) in E;
  vm_compute in E; discriminate E.

(** * Properties *)

(** ** The cost formula *)

Section CostFormula.
Local Open Scope num_scope.

(** Whatever the arithmetic, [calculateTotalCost] is the expression
    [rate*nh*wc + rate*oh*m*wc] evaluated from left to right. *)
Lemma calculateTotalCost_unfold {N} `{Num N} (r nh oh m wc : N) :
  Reports.calculateTotalCost r nh oh (Some m) wc
  = r * nh * wc + r * oh * m * wc.
Proof. reflexivity. Qed.

Lemma calculateCost_unfold {N} `{Num N} (r nh oh m wc : N) :
  EntryForm.calculateCost nh oh wc r m = (nh * r + oh * r * m) * wc.
Proof. reflexivity. Qed.

(** In exact arithmetic the entry form's grouping of the products is
    the same polynomial. *)
Lemma calculateCost_exact (r nh oh m wc : Qc) :
  EntryForm.calculateCost nh oh wc r m = r * nh * wc + r * oh * m * wc.
Proof. rewrite calculateCost_unfold. cbn. ring. Qed.
End CostFormula.

(** C1, as stated, fails for the entry form's [calculateCost] on binary64
    numbers, at rate 100.1, 8 normal hours, 4 overtime hours, 5 workers and
    multiplier 1.5.  The entry form computes [8*100.1 = 800.8],
    [4*100.1*1.5 = 600.5999999999999], their sum [1401.3999999999999] and
    its product by 5, [7006.999999999999]; the expression
    [rate*nh*wc + rate*oh*m*wc] is [4004 + 3002.9999999999995], which
    rounds to [7007]. *)
Lemma calculateCost_not_the_formula_in_binary64 :
  EntryForm.calculateCost 8%float 4%float 5%float 100.1%float 1.5%float
  = 7006.9999999999991%float
  /\ (100.1 * 8 * 5 + 100.1 * 4 * 1.5 * 5)%float = 7007%float
  /\ EntryForm.calculateCost 8%float 4%float 5%float 100.1%float 1.5%float
     <> (100.1 * 8 * 5 + 100.1 * 4 * 1.5 * 5)%float.
Proof.
  split; [vm_compute; reflexivity|]. split; [vm_compute; reflexivity|].
  floats_differ 7007%float.
Qed.

(** C1 (amended): [calculateTotalCost] returns exactly the value of
    [rate*normalHours*workerCount + rate*overtimeHours*m*workerCount], the
    products and the sum taken from left to right and nothing rounded
    afterwards, in every arithmetic; [calculateCost] returns that value in
    exact arithmetic. *)
Theorem cost_is_the_formula :
  (forall (N : Type) (num : Num N) (rate nh oh wc m : N),
      Reports.calculateTotalCost rate nh oh (Some m) wc
      = (rate * nh * wc + rate * oh * m * wc)%num)
  /\ (forall rate nh oh wc m : Qc,
         EntryForm.calculateCost nh oh wc rate m
         = (rate * nh * wc + rate * oh * m * wc)%num).
Proof.
  split.
  - intros. apply calculateTotalCost_unfold.
  - intros. apply calculateCost_exact.
Qed.

(** C6, as stated, fails on binary64 numbers: at rate 100.1, 8 normal
    hours, 4 overtime hours, 5 workers and multiplier 1.5 the report screen
    computes 7007 and the entry form 7006.999999999999. *)
Lemma cost_functions_differ_in_binary64 :
  Reports.calculateTotalCost 100.1%float 8%float 4%float (Some 1.5%float)
    5%float = 7007%float
  /\ EntryForm.calculateCost 8%float 4%float 5%float 100.1%float 1.5%float
     = 7006.9999999999991%float
  /\ Reports.calculateTotalCost 100.1%float 8%float 4%float (Some 1.5%float)
       5%float
     <> EntryForm.calculateCost 8%float 4%float 5%float 100.1%float
          1.5%float.
Proof.
  split; [vm_compute; reflexivity|]. split; [vm_compute; reflexivity|].
  floats_differ 7007%float.
Qed.

(** C6 (amended): in exact arithmetic the report screen's
    [calculateTotalCost] and the entry form's [calculateCost] compute the
    same value on all inputs. *)
Theorem cost_functions_agree_exactly (rate nh oh wc m : Qc) :
  Reports.calculateTotalCost rate nh oh (Some m) wc
  = EntryForm.calculateCost nh oh wc rate m.
Proof.
  rewrite calculateCost_exact. apply calculateTotalCost_unfold.
Qed.

(** ** The default multiplier *)

Lemma float_truthy_1_5 : float_truthy 1.5%float = true.
Proof. reflexivity. Qed.

Lemma float_falsy_0 : float_truthy 0%float = false.
Proof. reflexivity. Qed.

(** C5: a missing multiplier is costed as 1.5, both by the default value
    of the parameter of [calculateTotalCost] and by the [|| 1.5] applied to
    the optional field of a persisted entry. *)
Theorem missing_multiplier_is_1_5 :
  (forall (N : Type) (num : Num N) (rate nh oh workers : N),
      Reports.calculateTotalCost rate nh oh None workers
      = Reports.calculateTotalCost rate nh oh (Some lit_1_5) workers)
  /\ (forall entry : Reports.Entry float,
         Reports.entryTotalCost (Reports.withMultiplier None entry)
         = Reports.entryTotalCost
             (Reports.withMultiplier (Some 1.5%float) entry)).
Proof.
  split.
  - reflexivity.
  - intros entry. unfold Reports.entryTotalCost, orDefault.
    cbn [Reports.overtime_multiplier Reports.withMultiplier truthy lit_1_5
         JSNumber].
    rewrite float_truthy_1_5. reflexivity.
Qed.

(** ** Truncation of the stored date *)

(** A string without the separator is the one piece of its split. *)
Lemma split_without_separator (sep : ascii) (s : string) :
  ~ In sep (list_ascii_of_string s) -> split sep s = [s].
Proof.
  induction s as [|c s IH]; [reflexivity|].
  cbn [list_ascii_of_string split In]. intros Hno.
  destruct (Ascii.eqb c sep) eqn:E.
  - apply Ascii.eqb_eq in E. tauto.
  - rewrite IH by tauto. reflexivity.
Qed.

(** The fallback on the space is taken only when the piece in front of
    the first ["T"] is empty: a stored date without ["T"] is kept whole,
    with the time that follows a space. *)
Lemma dateOnly_without_T {N} `{Num N} (entry : Reports.Entry N) :
  Reports.entry_date entry <> "" ->
  ~ In "T"%char (list_ascii_of_string (Reports.entry_date entry)) ->
  Reports.dateOnly entry = Reports.entry_date entry.
Proof.
  intros Hne Hno. unfold Reports.dateOnly.
  rewrite (split_without_separator "T" _ Hno). cbn.
  destruct (Reports.entry_date entry); [contradiction | reflexivity].
Qed.

(** C2 (the code departs from it): a stored date with the time after a
    space is not truncated.  [split("T")[0]] is the whole string when it
    has no ["T"], which is truthy, so the fallback [split(" ")[0]] is not
    taken: the entry dated ["2025-06-01 10:00:00"] gets the key
    ["2025-06-01 10:00:00"] and a group of its own, while the entry dated
    ["2025-06-01T10:00:00"] is in the group ["2025-06-01"]. *)
Theorem space_separated_time_not_truncated :
  Reports.dateOnly (sampleEntry "2025-06-01T10:00:00") = "2025-06-01"
  /\ Reports.dateOnly (sampleEntry "2025-06-01 10:00:00")
     = "2025-06-01 10:00:00"
  /\ map Reports.date
       (Reports.groupEntriesByDate
          [sampleEntry "2025-06-01T10:00:00";
           sampleEntry "2025-06-01 10:00:00"])
     = ["2025-06-01 10:00:00"; "2025-06-01"].
Proof. repeat split; vm_compute; reflexivity. Qed.

(** ** Saving the daily batch *)

Section SaveDaily.
Context {N : Type} `{Num N}.
Import EntryForm.

Lemma saveDaily_no_site backend (st : State N) :
  siteId st = "" ->
  saveDaily backend st
  = (st, [Notify {| title := "Site not selected";
                    description := "Please select a site.";
                    destructive := true |}]).
Proof. intros E. unfold saveDaily. rewrite E. reflexivity. Qed.

Lemma saveDaily_no_entries backend (st : State N) :
  siteId st <> "" -> entries st = [] ->
  saveDaily backend st
  = (st, [Notify {| title := "No entries";
                    description := "Add at least one entry before saving.";
                    destructive := true |}]).
Proof.
  intros Hs E. unfold saveDaily. rewrite E.
  destruct (siteId st); [contradiction | reflexivity].
Qed.

Lemma saveDaily_unauthenticated backend (st : State N) :
  siteId st <> "" -> entries st <> [] -> authenticated backend = false ->
  saveDaily backend st
  = (st, [AuthGetUser;
          Notify {| title := "User not authenticated";
                    description := "Please log in to submit entries.";
                    destructive := true |}]).
Proof.
  intros Hs He Ha. unfold saveDaily, authenticated in *.
  destruct (siteId st); [contradiction|].
  destruct (entries st); [contradiction|].
  destruct (userError (getUser backend)), (user (getUser backend));
    try reflexivity; discriminate.
Qed.

Lemma saveDaily_submits backend (st : State N) u :
  siteId st <> "" -> entries st <> [] ->
  userError (getUser backend) = None -> user (getUser backend) = Some u ->
  saveDaily backend st
  = let rows := map (formatRow st u) (entries st) in
    match insert backend rows with
    | Some error =>
        (st, [AuthGetUser; InsertDailyEntries rows;
              Notify {| title := "Save failed";
                        description := message error;
                        destructive := true |}])
    | None =>
        ({| workerCategories := workerCategories st;
            selectedDate := selectedDate st;
            siteId := siteId st;
            entries := [];
            currentEntry := currentEntry st |},
         [AuthGetUser; InsertDailyEntries rows;
          Notify {| title := "Entries saved";
                    description :=
                      (showNat (List.length rows)
                       ++ " entries saved for " ++ selectedDate st)%string;
                    destructive := false |}])
    end.
Proof.
  intros Hs He Hu1 Hu2. unfold saveDaily.
  destruct (siteId st); [contradiction|].
  destruct (entries st) eqn:E; [contradiction|].
  rewrite Hu1, Hu2. reflexivity.
Qed.
End SaveDaily.

(** C8: with no site chosen, with an empty draft list, or without a valid
    session, [saveDaily] attempts no write, leaves the state of the form
    (the draft list included) as it was, and shows one error
    notification. *)
Theorem saveDaily_blocked
    (N : Type) (num : Num N)
    (backend : EntryForm.Backend N) (st : EntryForm.State N) :
  EntryForm.siteId st = "" \/ EntryForm.entries st = []
  \/ EntryForm.authenticated backend = false ->
  fst (EntryForm.saveDaily backend st) = st
  /\ EntryForm.writes (snd (EntryForm.saveDaily backend st)) = []
  /\ exists t,
       EntryForm.notifications (snd (EntryForm.saveDaily backend st)) = [t]
       /\ destructive t = true.
Proof.
  intros Hblocked.
  destruct (string_dec (EntryForm.siteId st) "") as [Hs | Hs].
  { rewrite (saveDaily_no_site backend st Hs). cbn. eauto. }
  destruct (EntryForm.entries st) as [|e es] eqn:He.
  { rewrite (saveDaily_no_entries backend st Hs He). cbn. eauto. }
  destruct Hblocked as [Hb | [Hb | Hb]]; try contradiction; try discriminate.
  assert (He' : EntryForm.entries st <> []) by (rewrite He; discriminate).
  rewrite (saveDaily_unauthenticated backend st Hs He' Hb). cbn. eauto.
Qed.

(** [saveDaily_blocked] on a form with a site and no draft entry. *)
Lemma saveDaily_blocked_witness :
  EntryForm.entries (sampleForm []) = []
  /\ fst (EntryForm.saveDaily sampleBackend (sampleForm [])) = sampleForm []
  /\ EntryForm.writes (snd (EntryForm.saveDaily sampleBackend (sampleForm [])))
     = [].
Proof.
  split; [reflexivity|].
  destruct (saveDaily_blocked float _ sampleBackend (sampleForm []))
    as [Hstate [Hwrites _]].
  - right. left. reflexivity.
  - split; assumption.
Defined.

(** C9: once the checks pass, the whole draft goes out as one insert; when
    the store reports no error the draft list becomes empty, and when it
    reports an error the state of the form, the draft list included, is
    the one before the call. *)
Theorem saveDaily_all_or_nothing
    (N : Type) (num : Num N)
    (backend : EntryForm.Backend N) (st : EntryForm.State N)
    (u : EntryForm.User) :
  EntryForm.siteId st <> "" ->
  EntryForm.entries st <> [] ->
  EntryForm.userError (EntryForm.getUser backend) = None ->
  EntryForm.user (EntryForm.getUser backend) = Some u ->
  let rows := map (EntryForm.formatRow st u) (EntryForm.entries st) in
  let result := EntryForm.saveDaily backend st in
  EntryForm.writes (snd result) = [rows]
  /\ (EntryForm.insert backend rows = None ->
      EntryForm.entries (fst result) = []
      /\ exists t, EntryForm.notifications (snd result) = [t]
                   /\ title t = "Entries saved")
  /\ (forall error, EntryForm.insert backend rows = Some error ->
      fst result = st
      /\ EntryForm.notifications (snd result)
         = [{| title := "Save failed"; description := message error;
               destructive := true |}]).
Proof.
  intros Hs He Hu1 Hu2 rows result. subst result.
  rewrite (saveDaily_submits backend st u Hs He Hu1 Hu2).
  fold rows. cbv zeta.
  destruct (EntryForm.insert backend rows) as [err|] eqn:Hi; cbn.
  - split; [reflexivity|]. split; [discriminate|].
    intros error [= <-]. split; reflexivity.
  - split; [reflexivity|]. split.
    + intros _. split; [reflexivity|]. eexists. split; reflexivity.
    + discriminate.
Qed.

(** [saveDaily_all_or_nothing] on a form with one draft entry and a store
    that accepts the batch. *)
Lemma saveDaily_all_or_nothing_witness :
  EntryForm.entries
    (fst (EntryForm.saveDaily sampleBackend (sampleForm [sampleDraft]))) = [].
Proof.
  destruct (saveDaily_all_or_nothing float _ sampleBackend
              (sampleForm [sampleDraft]) sampleUser) as [_ [Hsaved _]].
  - intro E. vm_compute in E. discriminate E.
  - intro E. vm_compute in E. discriminate E.
  - reflexivity.
  - reflexivity.
  - apply Hsaved. reflexivity.
Defined.

(** ** Creating a category *)

Section Binary64Order.
(** On binary64 numbers [x <= 0] and [not (0 < x)] differ at [NaN]
    only. *)
Lemma float_not_positive (x : float) :
  PrimFloat.is_nan x = false ->
  PrimFloat.leb x 0 = negb (PrimFloat.ltb 0 x).
Proof.
  unfold PrimFloat.is_nan.
  rewrite FloatAxioms.eqb_spec, FloatAxioms.ltb_spec, FloatAxioms.leb_spec.
  change (Prim2SF 0) with (S754_zero false).
  destruct (Prim2SF x) as [s | s | | s m e];
    unfold SFeqb, SFltb, SFleb; cbn;
    try destruct s; cbn; intros; try reflexivity; discriminate.
Qed.

Lemma float_truthy_not_nan (x : float) :
  float_truthy x = true -> PrimFloat.is_nan x = false.
Proof.
  unfold float_truthy. intros Hx.
  apply negb_true_iff, orb_false_iff in Hx. apply Hx.
Qed.
End Binary64Order.

Section AddCategory.
Import CategoryManager.

(** The stored hourly rate is never [NaN]: every handler that sets it
    stores a parsed number through [|| 0], or the literal [0]. *)
Lemma hourly_rate_not_nan (st : State float) :
  Reachable st ->
  PrimFloat.is_nan (hourly_rate (newCategory st)) = false.
Proof.
  induction 1 as [| v st _ IH | v st _ IH | parsed st _ IH
                  | data st _ IH | v st _ IH | backend st _ IH];
    try exact IH; try reflexivity.
  - cbn. destruct (float_truthy parsed) eqn:Hp.
    + now apply float_truthy_not_nan.
    + reflexivity.
  - unfold addCategory.
    destruct (draftRejected (newCategory st)); [exact IH|].
    destruct (backend _); [exact IH | reflexivity].
Qed.

Lemma string_empty_eqb (s : string) :
  String.eqb s "" = match s with EmptyString => true | _ => false end.
Proof. destruct s; reflexivity. Qed.

(** On a stored rate, the check the code makes is the negation of the
    requirement. *)
Lemma draftRejected_not_wellFormed (draft : NewCategory float) :
  PrimFloat.is_nan (hourly_rate draft) = false ->
  draftRejected draft = negb (wellFormedDraft draft).
Proof.
  intros Hnan. unfold wellFormedDraft, draftRejected.
  rewrite !string_empty_eqb.
  destruct (name draft); [reflexivity|].
  destruct (short_code draft); [reflexivity|].
  cbn. now apply float_not_positive.
Qed.

(** A draft that meets the requirement is sent to the store, as one
    active row. *)
Lemma addCategory_inserts_wellFormed (backend : Backend float)
    (st : State float) :
  Reachable st ->
  wellFormedDraft (newCategory st) = true ->
  inserts (snd (addCategory backend st))
  = [[{| row_name := name (newCategory st);
         row_short_code := short_code (newCategory st);
         row_hourly_rate := hourly_rate (newCategory st);
         row_overtime_multiplier := overtime_multiplier (newCategory st);
         row_is_active := true |}]].
Proof.
  intros Hreach Hok. unfold addCategory.
  rewrite draftRejected_not_wellFormed by now apply hourly_rate_not_nan.
  rewrite Hok. cbn [negb]. destruct (backend _); reflexivity.
Qed.

Lemma addCategory_rejected {N} `{Num N} backend (st : State N) :
  draftRejected (newCategory st) = true ->
  addCategory backend st = (st, [Notify validationToast]).
Proof. intros E. unfold addCategory. rewrite E. reflexivity. Qed.
End AddCategory.

(** C7: in every state the component can reach, a draft without a name,
    without a short code or without a strictly positive hourly rate (so
    also with the rate 0) is rejected by [addCategory]: the validation
    message is shown, no insert is attempted and the state is the one
    before the call. *)
Theorem addCategory_rejects_invalid_draft
    (backend : CategoryManager.Backend float)
    (st : CategoryManager.State float) :
  CategoryManager.Reachable st ->
  CategoryManager.wellFormedDraft (CategoryManager.newCategory st) = false ->
  CategoryManager.addCategory backend st
  = (st, [CategoryManager.Notify CategoryManager.validationToast])
  /\ CategoryManager.inserts
       (snd (CategoryManager.addCategory backend st)) = [].
Proof.
  intros Hreach Hbad.
  assert (E : CategoryManager.addCategory backend st
              = (st, [CategoryManager.Notify
                        CategoryManager.validationToast])).
  { apply addCategory_rejected.
    rewrite draftRejected_not_wellFormed by now apply hourly_rate_not_nan.
    now rewrite Hbad. }
  rewrite E. split; reflexivity.
Qed.

(** [addCategory_rejects_invalid_draft] on the draft with the hourly
    rate 0. *)
Lemma addCategory_rejects_invalid_draft_witness :
  CategoryManager.hourly_rate (CategoryManager.newCategory zeroRateDraft)
  = 0%float
  /\ CategoryManager.addCategory (fun _ => None) zeroRateDraft
     = (zeroRateDraft,
        [CategoryManager.Notify CategoryManager.validationToast]).
Proof.
  split; [reflexivity|].
  apply (addCategory_rejects_invalid_draft (fun _ => None) zeroRateDraft).
  - unfold zeroRateDraft.
    apply CategoryManager.reach_hourly_rate,
          CategoryManager.reach_short_code,
          CategoryManager.reach_name, CategoryManager.reach_initial.
  - vm_compute. reflexivity.
Defined.

(** ** Sorting *)

Section SortFacts.
Context {A : Type} (cmp : A -> A -> comparison).

Lemma insertSorted_perm (x : A) (l : list A) :
  Permutation (insertSorted cmp x l) (x :: l).
Proof.
  induction l as [|y l IH]; cbn; [reflexivity|].
  destruct (cmp x y); try reflexivity.
  rewrite IH. apply perm_swap.
Qed.

Lemma sort_perm (l : list A) : Permutation (sort cmp l) l.
Proof.
  induction l as [|x l IH]; cbn; [reflexivity|].
  rewrite insertSorted_perm. now constructor.
Qed.

(** Sorting sees the elements through the comparator only. *)
Lemma sort_map {B : Type} (cmpB : B -> B -> comparison) (f : A -> B) :
  (forall x y, cmpB (f x) (f y) = cmp x y) ->
  forall l, sort cmpB (map f l) = map f (sort cmp l).
Proof.
  intros Hf.
  assert (Hins : forall x l,
             insertSorted cmpB (f x) (map f l)
             = map f (insertSorted cmp x l)).
  { intros x l. induction l as [|y l IH]; cbn; [reflexivity|].
    rewrite Hf. destruct (cmp x y); cbn; try reflexivity.
    now rewrite IH. }
  induction l as [|x l IH]; cbn; [reflexivity|].
  unfold sort in IH. now rewrite IH, Hins.
Qed.
End SortFacts.

(** The order of the character codes on strings. *)
Section StringOrder.

Lemma after_iff_lt a b : after a b <-> String_as_OT.lt b a.
Proof.
  unfold after, localeCompare.
  rewrite <- String_as_OT.cmp_lt. unfold String_as_OT.cmp.
  rewrite (String.compare_antisym a b).
  destruct (String.compare b a); cbn; split; congruence.
Qed.

Lemma after_trans a b c : after a b -> after b c -> after a c.
Proof.
  rewrite !after_iff_lt. intros Hab Hbc.
  eapply String_as_OT.lt_trans; eassumption.
Qed.

Lemma after_irrefl a : ~ after a a.
Proof.
  rewrite after_iff_lt. intros Hlt.
  exact (String_as_OT.lt_not_eq _ _ Hlt eq_refl).
Qed.

Lemma after_asym a b : after a b -> after b a -> False.
Proof. intros Hab Hba. exact (after_irrefl a (after_trans _ _ _ Hab Hba)). Qed.

Lemma not_after_cases a b :
  localeCompare a b <> Gt -> a = b \/ after b a.
Proof.
  unfold after, localeCompare. intros Hc.
  destruct (String.compare a b) eqn:E.
  - left. now apply String.compare_eq_iff.
  - right. rewrite String.compare_antisym, E. reflexivity.
  - contradiction.
Qed.

Lemma insertSorted_descending x l :
  ~ In x l -> descending l ->
  descending (insertSorted descendingCmp x l).
Proof.
  intros Hx Hl. induction Hl as [|y l Hl IH Hy]; cbn.
  - repeat constructor.
  - unfold descendingCmp at 1.
    destruct (localeCompare y x) eqn:E.
    + apply String.compare_eq_iff in E. subst. cbn in Hx. tauto.
    + (* y before x: x goes in front *)
      assert (Hxy : after x y).
      { unfold after, localeCompare in *.
        rewrite String.compare_antisym, E. reflexivity. }
      constructor; [now constructor|].
      constructor; [exact Hxy|].
      rewrite Forall_forall in *. intros z Hz.
      eapply after_trans; [exact Hxy | now apply Hy].
    + constructor.
      * apply IH. cbn in Hx. tauto.
      * rewrite Forall_forall in *. intros z Hz.
        apply (Permutation_in _ (insertSorted_perm _ x l)) in Hz.
        destruct Hz as [<- | Hz]; [exact E | now apply Hy].
Qed.

Lemma sort_descending l :
  NoDup l -> descending (sort descendingCmp l).
Proof.
  induction 1 as [|x l Hx Hl IH]; cbn; [constructor|].
  apply insertSorted_descending; [|exact IH].
  intros Hin. apply Hx.
  exact (Permutation_in _ (sort_perm _ l) Hin).
Qed.

(** A set of strings has one descending enumeration. *)
Lemma descending_unique l1 l2 :
  descending l1 -> descending l2 -> Permutation l1 l2 -> l1 = l2.
Proof.
  intros H1. revert l2.
  induction H1 as [|a l1 H1 IH Ha]; intros l2 H2 Hp.
  - apply Permutation_nil in Hp. now subst.
  - destruct H2 as [|b l2 H2 Hb].
    + apply Permutation_sym, Permutation_nil in Hp. discriminate.
    + assert (a = b) as <-.
      { assert (Hab : In a (b :: l2))
          by (apply (Permutation_in _ Hp); now left).
        assert (Hba : In b (a :: l1))
          by (apply (Permutation_in _ (Permutation_sym Hp)); now left).
        destruct Hab as [-> | Hab]; [reflexivity|].
        destruct Hba as [-> | Hba]; [reflexivity|].
        rewrite Forall_forall in Ha, Hb.
        destruct (after_asym a b); auto. }
      f_equal. apply IH; [exact H2|].
      now apply Permutation_cons_inv in Hp.
Qed.

Lemma sort_descending_perm l1 l2 :
  NoDup l1 -> Permutation l1 l2 ->
  sort descendingCmp l1 = sort descendingCmp l2.
Proof.
  intros Hnd Hp.
  apply descending_unique.
  - now apply sort_descending.
  - apply sort_descending. eapply Permutation_NoDup; eassumption.
  - rewrite !sort_perm. exact Hp.
Qed.
End StringOrder.

(** ** First occurrences *)

Section FirstOccurrences.

Lemma existsb_eqb_In k ks : existsb (String.eqb k) ks = true <-> In k ks.
Proof.
  rewrite existsb_exists. split.
  - intros [x [Hx E]]. apply String.eqb_eq in E. now subst.
  - intros Hk. exists k. split; [exact Hk | apply String.eqb_refl].
Qed.

Lemma existsb_eqb_not_In k ks :
  existsb (String.eqb k) ks = false <-> ~ In k ks.
Proof.
  rewrite <- existsb_eqb_In. destruct (existsb _ ks); split; congruence.
Qed.

Lemma firsts_snoc l k : firsts (l ++ [k]) = addKey (firsts l) k.
Proof. unfold firsts. now rewrite fold_left_app. Qed.

Lemma addKey_In ks k x : In x (addKey ks k) <-> In x ks \/ x = k.
Proof.
  unfold addKey. destruct (existsb (String.eqb k) ks) eqn:E.
  - apply existsb_eqb_In in E. split; [tauto|].
    intros [Hx | ->]; assumption.
  - rewrite in_app_iff. cbn. intuition.
Qed.

Lemma addKey_NoDup ks k : NoDup ks -> NoDup (addKey ks k).
Proof.
  intros Hnd. unfold addKey.
  destruct (existsb (String.eqb k) ks) eqn:E; [exact Hnd|].
  apply existsb_eqb_not_In in E.
  apply NoDup_app; [exact Hnd | repeat constructor; intros [] |].
  intros x Hx [<- | []]. contradiction.
Qed.

Lemma firsts_In l x : In x (firsts l) <-> In x l.
Proof.
  induction l as [|k l IH] using rev_ind; [reflexivity|].
  rewrite firsts_snoc, addKey_In, in_app_iff, IH. cbn. intuition.
Qed.

Lemma firsts_NoDup l : NoDup (firsts l).
Proof.
  induction l as [|k l IH] using rev_ind; [constructor|].
  rewrite firsts_snoc. now apply addKey_NoDup.
Qed.

Lemma firsts_perm l1 l2 :
  Permutation l1 l2 -> Permutation (firsts l1) (firsts l2).
Proof.
  intros Hp. apply NoDup_Permutation; try apply firsts_NoDup.
  intros x. rewrite !firsts_In.
  split; apply Permutation_in; [exact Hp | now apply Permutation_sym].
Qed.
End FirstOccurrences.

(** ** What the grouping loop computes *)

Section GroupingFacts.
Context {N : Type} `{Num N}.
Import Reports ByDay.
Implicit Types (l es : list (Entry N)) (e : Entry N).
Implicit Types (r : DailyReport N).
Local Open Scope num_scope.

Lemma groupLoop_snoc l e :
  groupLoop (l ++ [e]) = groupStep (groupLoop l) e.
Proof. unfold groupLoop. now rewrite fold_left_app. Qed.

Lemma reportOf_snoc day l e :
  reportOf day (l ++ [e])
  = if String.eqb (dateOnly e) day
    then addToReport e (entryTotalCost e) (reportOf day l)
    else reportOf day l.
Proof.
  unfold reportOf, dayEntries, accumulate.
  rewrite filter_app. cbn [filter].
  destruct (String.eqb (dateOnly e) day).
  - now rewrite fold_left_app.
  - now rewrite app_nil_r.
Qed.

Lemma reportOf_absent day l :
  ~ In day (map dateOnly l) -> reportOf day l = emptyReport day.
Proof.
  intros Hd. unfold reportOf, dayEntries.
  replace (filter _ l) with (@nil (Entry N)); [reflexivity|].
  symmetry. induction l as [|e l IH]; [reflexivity|].
  cbn in *. destruct (String.eqb (dateOnly e) day) eqn:E.
  - apply String.eqb_eq in E. tauto.
  - apply IH. tauto.
Qed.

Lemma accumulate_date r es : date (accumulate r es) = date r.
Proof.
  revert r. induction es as [|e es IH]; intros r; [reflexivity|].
  cbn. unfold accumulate in IH. now rewrite IH.
Qed.

Lemma reportOf_date day l : date (reportOf day l) = day.
Proof. unfold reportOf. now rewrite accumulate_date. Qed.

Section KeyedList.
Variable g : string -> DailyReport N.

Lemma lookup_tabulated day ks :
  lookup day (map (fun k => (k, g k)) ks)
  = if existsb (String.eqb day) ks then Some (g day) else None.
Proof.
  induction ks as [|k ks IH]; [reflexivity|].
  cbn. rewrite (String.eqb_sym day k).
  destruct (String.eqb k day) eqn:E; cbn.
  - apply String.eqb_eq in E. now subst.
  - exact IH.
Qed.

Lemma update_tabulated day f ks :
  NoDup ks ->
  update day f (map (fun k => (k, g k)) ks)
  = map (fun k => (k, if String.eqb k day then f (g k) else g k)) ks.
Proof.
  induction 1 as [|k ks Hk Hnd IH]; [reflexivity|].
  cbn. destruct (String.eqb k day) eqn:E.
  - apply String.eqb_eq in E. subst. f_equal.
    apply map_ext_in. intros k Hin.
    destruct (String.eqb k day) eqn:E'; [|reflexivity].
    apply String.eqb_eq in E'. subst. contradiction.
  - now rewrite IH.
Qed.
End KeyedList.

(** The map built by the loop: the days in the order of their first
    occurrence, each with the report of its entries. *)
Lemma groupLoop_tabulated l :
  groupLoop l = map (fun day => (day, reportOf day l)) (days l).
Proof.
  induction l as [|e l IH] using rev_ind; [reflexivity|].
  rewrite groupLoop_snoc. unfold groupStep. cbv zeta.
  rewrite IH, lookup_tabulated.
  unfold days. rewrite map_app. cbn [map]. rewrite firsts_snoc.
  fold (days l).
  assert (Hstep : forall ks, NoDup ks ->
            update (dateOnly e)
              (addToReport e (entryTotalCost e))
              (map (fun d => (d, reportOf d l)) ks)
            = map (fun d => (d, reportOf d (l ++ [e]))) ks).
  { intros ks Hnd. rewrite update_tabulated by exact Hnd.
    apply map_ext. intros d. rewrite reportOf_snoc.
    rewrite (String.eqb_sym d (dateOnly e)). reflexivity. }
  pose proof (addKey_NoDup (days l) (dateOnly e) (firsts_NoDup _)) as Hnd.
  unfold addKey in *.
  destruct (existsb (String.eqb (dateOnly e)) (days l)) eqn:E.
  - now apply Hstep.
  - rewrite <- (Hstep _ Hnd). f_equal.
    rewrite map_app. cbn [map]. rewrite reportOf_absent; [reflexivity|].
    apply existsb_eqb_not_In in E. unfold days in E.
    now rewrite firsts_In in E.
Qed.

(** The array returned: the days from the latest to the earliest, each
    with the report of its entries. *)
Lemma groupEntriesByDate_tabulated l :
  groupEntriesByDate l
  = map (fun day => reportOf day l) (sort descendingCmp (days l)).
Proof.
  unfold groupEntriesByDate. rewrite groupLoop_tabulated.
  rewrite map_map. cbn [snd].
  apply sort_map. intros x y.
  unfold byDateDescending, descendingCmp. now rewrite !reportOf_date.
Qed.

Lemma groupEntriesByDate_dates l :
  map date (groupEntriesByDate l) = sort descendingCmp (days l).
Proof.
  rewrite groupEntriesByDate_tabulated, map_map.
  rewrite <- (map_id (sort descendingCmp (days l))) at 2.
  apply map_ext. intros d. apply reportOf_date.
Qed.

(** The order in which [Object.values] enumerates the map does not show
    in the result. *)
Lemma groupEntriesByDate_any_enumeration l (values : list (DailyReport N)) :
  Permutation values (map snd (groupLoop l)) ->
  sort byDateDescending values = groupEntriesByDate l.
Proof.
  intros Hp. rewrite groupEntriesByDate_tabulated.
  rewrite groupLoop_tabulated, map_map in Hp. cbn [snd] in Hp.
  apply Permutation_map_inv in Hp. destruct Hp as [ks [-> Hks]].
  rewrite (sort_map descendingCmp byDateDescending).
  - f_equal. symmetry. apply sort_descending_perm; [apply firsts_NoDup|].
    exact Hks.
  - intros x y. unfold byDateDescending, descendingCmp.
    now rewrite !reportOf_date.
Qed.

Lemma days_perm (l1 l2 : list (Entry N)) :
  Permutation l1 l2 -> Permutation (days l1) (days l2).
Proof. intros Hp. apply firsts_perm. now apply Permutation_map. Qed.

Lemma sorted_days_perm (l1 l2 : list (Entry N)) :
  Permutation l1 l2 ->
  sort descendingCmp (days l1) = sort descendingCmp (days l2).
Proof.
  intros Hp. apply sort_descending_perm.
  - apply firsts_NoDup.
  - now apply days_perm.
Qed.

Lemma dayEntries_perm day (l1 l2 : list (Entry N)) :
  Permutation l1 l2 -> Permutation (dayEntries day l1) (dayEntries day l2).
Proof.
  unfold dayEntries. induction 1; cbn.
  - reflexivity.
  - destruct (String.eqb _ day); [now constructor | assumption].
  - destruct (String.eqb (dateOnly x) day), (String.eqb (dateOnly y) day);
      try reflexivity. apply perm_swap.
  - etransitivity; eassumption.
Qed.
End GroupingFacts.

Section ReportContents.
Context {N : Type} `{Num N}.
Import Reports ByDay.
Implicit Types (l es : list (Entry N)) (e : Entry N).
Implicit Types (r : DailyReport N).
Local Open Scope num_scope.

Lemma accumulate_snoc r es e :
  accumulate r (es ++ [e])
  = addToReport e (entryTotalCost e) (accumulate r es).
Proof. unfold accumulate. now rewrite fold_left_app. Qed.

Lemma accumulate_totalWorkers r es :
  totalWorkers (accumulate r es)
  = fold_left (fun a e => a + num_workers e) es (totalWorkers r).
Proof.
  induction es as [|e es IH] using rev_ind; [reflexivity|].
  now rewrite accumulate_snoc, fold_left_app, <- IH.
Qed.

Lemma accumulate_totalCost r es :
  totalCost (accumulate r es)
  = fold_left (fun a e => a + entryTotalCost e) es (totalCost r).
Proof.
  induction es as [|e es IH] using rev_ind; [reflexivity|].
  now rewrite accumulate_snoc, fold_left_app, <- IH.
Qed.

Lemma accumulate_entries r es : entries (accumulate r es) = entries r ++ es.
Proof.
  induction es as [|e es IH] using rev_ind.
  - cbn. now rewrite app_nil_r.
  - rewrite accumulate_snoc. cbn. now rewrite IH, app_assoc.
Qed.

Lemma accumulate_categories r es :
  categories (accumulate r es)
  = fold_left (fun cs e => addCategoryTotal e (entryTotalCost e) cs) es
      (categories r).
Proof.
  induction es as [|e es IH] using rev_ind; [reflexivity|].
  now rewrite accumulate_snoc, fold_left_app, <- IH.
Qed.

Lemma reportOf_categories day l :
  categories (reportOf day l) = catTotals (dayEntries day l).
Proof. unfold reportOf. now rewrite accumulate_categories. Qed.

Lemma sum1_snoc (g : Entry N -> N) es e :
  es <> [] -> sum1 (map g (es ++ [e])) = sum1 (map g es) + g e.
Proof.
  destruct es as [|x es]; [contradiction|]. intros _.
  cbn. now rewrite map_app, fold_left_app.
Qed.

Lemma catEntries_snoc cat es e :
  catEntries cat (es ++ [e])
  = catEntries cat es ++ (if String.eqb (category e) cat then [e] else []).
Proof. unfold catEntries. now rewrite filter_app. Qed.

Lemma catEntries_present cat es :
  In cat (map category es) -> catEntries cat es <> [].
Proof.
  rewrite in_map_iff. intros [e [<- He]] Hnil.
  assert (Hin : In e (catEntries (category e) es)).
  { apply filter_In. split; [exact He | apply String.eqb_refl]. }
  rewrite Hnil in Hin. contradiction.
Qed.

Lemma catEntries_absent cat es :
  ~ In cat (map category es) -> catEntries cat es = [].
Proof.
  intros Hc. induction es as [|e es IH]; [reflexivity|].
  cbn in *. destruct (String.eqb (category e) cat) eqn:E.
  - apply String.eqb_eq in E. tauto.
  - apply IH. tauto.
Qed.

Section Tabulated.
Variable F : string -> CategoryTotal N.
Hypothesis F_name : forall k, name (F k) = k.

Lemma find_tabulated cat ks :
  find (fun c => String.eqb (name c) cat) (map F ks)
  = if existsb (String.eqb cat) ks then Some (F cat) else None.
Proof.
  induction ks as [|k ks IH]; [reflexivity|].
  cbn. rewrite F_name, (String.eqb_sym cat k).
  destruct (String.eqb k cat) eqn:E; cbn.
  - apply String.eqb_eq in E. now subst.
  - exact IH.
Qed.

Lemma bumpCategory_tabulated cat w c ks :
  NoDup ks ->
  bumpCategory cat w c (map F ks)
  = map (fun k =>
           if String.eqb k cat
           then {| name := name (F k); workers := workers (F k) + w;
                   cost := cost (F k) + c |}
           else F k) ks.
Proof.
  induction 1 as [|k ks Hk Hnd IH]; [reflexivity|].
  cbn. rewrite F_name. destruct (String.eqb k cat) eqn:E.
  - apply String.eqb_eq in E. subst. f_equal.
    apply map_ext_in. intros k Hin.
    destruct (String.eqb k cat) eqn:E'; [|reflexivity].
    apply String.eqb_eq in E'. subst. contradiction.
  - now rewrite IH.
Qed.
End Tabulated.

Lemma catTotals_snoc es e :
  catTotals (es ++ [e])
  = addCategoryTotal e (entryTotalCost e) (catTotals es).
Proof. unfold catTotals. now rewrite fold_left_app. Qed.

(** The subtotals of a day: its categories in the order of their first
    occurrence, each with the sums over its entries. *)
Lemma catTotals_tabulated es :
  catTotals es
  = map (fun cat => catTotalOf cat es) (firsts (map category es)).
Proof.
  induction es as [|e es IH] using rev_ind; [reflexivity|].
  rewrite catTotals_snoc, IH. unfold addCategoryTotal.
  rewrite find_tabulated by reflexivity.
  rewrite map_app. cbn [map]. rewrite firsts_snoc.
  set (ks := firsts (map category es)).
  assert (Hold : forall k, In k ks -> k <> category e ->
                 catTotalOf k (es ++ [e]) = catTotalOf k es).
  { intros k _ Hk. unfold catTotalOf. rewrite catEntries_snoc.
    destruct (String.eqb (category e) k) eqn:E.
    - apply String.eqb_eq in E. congruence.
    - now rewrite app_nil_r. }
  unfold addKey. destruct (existsb (String.eqb (category e)) ks) eqn:E.
  - rewrite bumpCategory_tabulated
      by (reflexivity || apply firsts_NoDup).
    apply map_ext_in. intros k Hk.
    destruct (String.eqb k (category e)) eqn:E'.
    + apply String.eqb_eq in E'. subst k.
      unfold catTotalOf. rewrite catEntries_snoc, String.eqb_refl.
      assert (Hne : catEntries (category e) es <> []).
      { apply catEntries_present. subst ks. now rewrite firsts_In in Hk. }
      cbn [name workers cost]. now rewrite !sum1_snoc by exact Hne.
    + symmetry. apply Hold; [exact Hk|].
      apply String.eqb_neq in E'. exact E'.
  - apply existsb_eqb_not_In in E.
    rewrite map_app. cbn [map]. f_equal.
    + apply map_ext_in. intros k Hk. symmetry. apply Hold; [exact Hk|].
      intros ->. contradiction.
    + unfold catTotalOf. rewrite catEntries_snoc, String.eqb_refl.
      rewrite catEntries_absent; [reflexivity|].
      subst ks. now rewrite firsts_In in E.
Qed.

Lemma catEntries_perm cat (es1 es2 : list (Entry N)) :
  Permutation es1 es2 -> Permutation (catEntries cat es1) (catEntries cat es2).
Proof.
  unfold catEntries. induction 1; cbn.
  - reflexivity.
  - destruct (String.eqb _ cat); [now constructor | assumption].
  - destruct (String.eqb (category x) cat), (String.eqb (category y) cat);
      try reflexivity. apply perm_swap.
  - etransitivity; eassumption.
Qed.

(** In every arithmetic, the days of the output and the category names
    of a day do not depend on the order of the collection. *)
Lemma category_names_perm day (l1 l2 : list (Entry N)) :
  Permutation l1 l2 ->
  Permutation (map name (categories (reportOf day l1)))
              (map name (categories (reportOf day l2))).
Proof.
  intros Hp. rewrite !reportOf_categories, !catTotals_tabulated.
  rewrite !map_map. cbn [name catTotalOf]. rewrite !map_id.
  apply firsts_perm, Permutation_map. now apply dayEntries_perm.
Qed.
(** The reports depend on an entry through its day, its category, its
    number of workers and its cost only. *)
Lemma addCategoryTotal_sameCosting e1 e2 cs :
  sameCosting e1 e2 ->
  addCategoryTotal e1 (entryTotalCost e1) cs
  = addCategoryTotal e2 (entryTotalCost e2) cs.
Proof.
  intros (_ & Hc & Hw & Ht). unfold addCategoryTotal.
  now rewrite Hc, Hw, Ht.
Qed.

Lemma accumulate_sameCosting es1 es2 :
  Forall2 sameCosting es1 es2 ->
  forall r1 r2, figures r1 = figures r2 ->
  figures (accumulate r1 es1) = figures (accumulate r2 es2).
Proof.
  induction 1 as [|e1 e2 es1 es2 He _ IH]; intros r1 r2 Hr; [exact Hr|].
  cbn. apply IH. unfold figures in *. cbn.
  injection Hr as Hd Hw Hc Hcs.
  rewrite Hd, Hw, Hc, Hcs, (addCategoryTotal_sameCosting e1 e2 _ He).
  destruct He as (_ & _ & -> & ->). reflexivity.
Qed.

Lemma dayEntries_sameCosting day l1 l2 :
  Forall2 sameCosting l1 l2 ->
  Forall2 sameCosting (dayEntries day l1) (dayEntries day l2).
Proof.
  induction 1 as [|e1 e2 l1 l2 He _ IH]; cbn; [constructor|].
  destruct He as (Hd & He). rewrite <- Hd.
  destruct (String.eqb (dateOnly e1) day); [constructor|]; auto.
  repeat split; tauto.
Qed.

Lemma days_sameCosting l1 l2 :
  Forall2 sameCosting l1 l2 -> days l1 = days l2.
Proof.
  intros Hl. unfold days. f_equal.
  induction Hl as [|e1 e2 l1 l2 He _ IH]; cbn; [reflexivity|].
  destruct He as (-> & _). now rewrite IH.
Qed.

Lemma groupEntriesByDate_sameCosting l1 l2 :
  Forall2 sameCosting l1 l2 ->
  map figures (groupEntriesByDate l1) = map figures (groupEntriesByDate l2).
Proof.
  intros Hl. rewrite !groupEntriesByDate_tabulated, !map_map.
  rewrite (days_sameCosting l1 l2 Hl). apply map_ext. intros day.
  apply accumulate_sameCosting; [|reflexivity].
  now apply dayEntries_sameCosting.
Qed.
End ReportContents.

(** ** Totals in exact arithmetic *)

Section ExactTotals.
Import Reports ByDay.
Local Open Scope Qc_scope.

Lemma sumQc_perm l1 l2 : Permutation l1 l2 -> sumQc l1 = sumQc l2.
Proof.
  unfold sumQc. induction 1; cbn [fold_right].
  - reflexivity.
  - now f_equal.
  - ring.
  - congruence.
Qed.

Lemma fold_left_plus {A} (g : A -> Qc) (es : list A) (a : Qc) :
  fold_left (fun acc e => nadd acc (g e)) es a = a + sumQc (map g es).
Proof.
  revert a. unfold sumQc.
  induction es as [|e es IH]; intros a; cbn [fold_left map fold_right].
  - ring.
  - rewrite IH. change (@nadd Qc ExactNumber) with Qcplus. ring.
Qed.

Lemma sum1_exact (l : list Qc) : sum1 l = sumQc l.
Proof.
  destruct l as [|x xs]; [reflexivity|]. cbn [sum1].
  rewrite (fold_left_plus (fun x => x)), map_id. reflexivity.
Qed.

Lemma totalWorkers_perm day (l1 l2 : list (Entry Qc)) :
  Permutation l1 l2 ->
  totalWorkers (reportOf day l1) = totalWorkers (reportOf day l2).
Proof.
  intros Hp. unfold reportOf.
  rewrite !accumulate_totalWorkers, !fold_left_plus. f_equal.
  apply sumQc_perm, Permutation_map. now apply dayEntries_perm.
Qed.

Lemma totalCost_perm day (l1 l2 : list (Entry Qc)) :
  Permutation l1 l2 ->
  totalCost (reportOf day l1) = totalCost (reportOf day l2).
Proof.
  intros Hp. unfold reportOf.
  rewrite !accumulate_totalCost, !fold_left_plus. f_equal.
  apply sumQc_perm, Permutation_map. now apply dayEntries_perm.
Qed.

Lemma catTotalOf_perm cat (es1 es2 : list (Entry Qc)) :
  Permutation es1 es2 -> catTotalOf cat es1 = catTotalOf cat es2.
Proof.
  intros Hp. unfold catTotalOf. rewrite !sum1_exact.
  f_equal; apply sumQc_perm, Permutation_map; now apply catEntries_perm.
Qed.

Lemma catTotals_perm (es1 es2 : list (Entry Qc)) :
  Permutation es1 es2 -> Permutation (catTotals es1) (catTotals es2).
Proof.
  intros Hp. rewrite !catTotals_tabulated.
  rewrite (map_ext _ _ (fun cat => catTotalOf_perm cat es1 es2 Hp)).
  apply Permutation_map, firsts_perm. now apply Permutation_map.
Qed.

Lemma categories_perm day (l1 l2 : list (Entry Qc)) :
  Permutation l1 l2 ->
  Permutation (categories (reportOf day l1)) (categories (reportOf day l2)).
Proof.
  intros Hp. rewrite !reportOf_categories.
  now apply catTotals_perm, dayEntries_perm.
Qed.
End ExactTotals.

Lemma Forall2_map_same {A B} (R : B -> B -> Prop) (f g : A -> B) (l : list A) :
  (forall x, R (f x) (g x)) -> Forall2 R (map f l) (map g l).
Proof. intros HR. induction l; cbn; constructor; auto. Qed.

(** ** Order of the reports and order of the collection *)






(** ** The multiplier 0 *)

Lemma entryTotalCost_zero_multiplier (entry : Reports.Entry float) :
  Reports.entryTotalCost (Reports.withMultiplier (Some 0%float) entry)
  = Reports.entryTotalCost (Reports.withMultiplier (Some 1.5%float) entry).
Proof.
  unfold Reports.entryTotalCost, orDefault.
  cbn [Reports.overtime_multiplier Reports.withMultiplier truthy lit_1_5
       JSNumber].
  rewrite float_truthy_1_5, float_falsy_0. reflexivity.
Qed.


(** ** A day with two entries *)

(** Two entries of one day for the category "Mason" at rate 100, with 8
    normal and 2 overtime hours, 3 workers and multiplier 1.5, cost 3300
    each; the day has 6 workers, the total cost 6600 and the one subtotal
    of "Mason". *)
Example two_mason_entries :
  map (fun r => (Reports.date r, Reports.totalWorkers r, Reports.totalCost r,
                 Reports.categories r))
    (Reports.groupEntriesByDate
       [sampleEntry "2025-06-01"; sampleEntry "2025-06-01"])
  = [("2025-06-01", 6%float, 6600%float,
      [{| Reports.name := "Mason"; Reports.workers := 6%float;
          Reports.cost := 6600%float |}])].
Proof. vm_compute. reflexivity. Qed.

(** * Further properties *)

(** ** The reports and the collection *)

Section ReportsOfACollection.
Context {N : Type} `{Num N}.
Import Reports ByDay.
Implicit Types (l es : list (Entry N)) (e : Entry N).
Implicit Types (r : DailyReport N).

Lemma in_groupEntriesByDate l r :
  In r (groupEntriesByDate l) <->
  exists day, In day (days l) /\ r = reportOf day l.
Proof.
  rewrite groupEntriesByDate_tabulated, in_map_iff. split.
  - intros [day [<- Hin]]. exists day. split; [|reflexivity].
    exact (Permutation_in _ (sort_perm _ _) Hin).
  - intros [day [Hin ->]]. exists day. split; [reflexivity|].
    exact (Permutation_in _ (Permutation_sym (sort_perm _ _)) Hin).
Qed.

Lemma days_In l day :
  In day (days l) <-> exists e, In e l /\ dateOnly e = day.
Proof.
  unfold days. rewrite firsts_In, in_map_iff.
  split; intros [e [H1 H2]]; exists e; auto.
Qed.

Lemma reportOf_entries day l : entries (reportOf day l) = dayEntries day l.
Proof. unfold reportOf. now rewrite accumulate_entries. Qed.

(** Selecting the entries of a day from a list of days' entries. *)
Lemma filter_flat_map {A B} (p : B -> bool) (g : A -> list B) (ks : list A) :
  filter p (flat_map g ks) = flat_map (fun k => filter p (g k)) ks.
Proof.
  induction ks as [|k ks IH]; [reflexivity|].
  cbn. now rewrite filter_app, IH.
Qed.

Lemma dayEntries_twice day day' l :
  dayEntries day (dayEntries day' l)
  = if String.eqb day' day then dayEntries day l else [].
Proof.
  unfold dayEntries. induction l as [|e l IH].
  - now destruct (String.eqb day' day).
  - cbn. destruct (String.eqb (dateOnly e) day') eqn:E1.
    + apply String.eqb_eq in E1. subst day'. cbn.
      destruct (String.eqb (dateOnly e) day); [|exact IH].
      now rewrite IH.
    + rewrite IH. destruct (String.eqb day' day) eqn:E2; [|reflexivity].
      apply String.eqb_eq in E2. subst day'. now rewrite E1.
Qed.

Lemma flat_map_single {B} (X : list B) day (ks : list string) :
  NoDup ks ->
  flat_map (fun k => if String.eqb k day then X else []) ks
  = if existsb (String.eqb day) ks then X else [].
Proof.
  induction 1 as [|k ks Hk Hnd IH]; [reflexivity|].
  cbn. rewrite IH, (String.eqb_sym day k).
  destruct (String.eqb k day) eqn:E; cbn; [|reflexivity].
  apply String.eqb_eq in E. subst k.
  apply existsb_eqb_not_In in Hk. rewrite Hk. apply app_nil_r.
Qed.

Lemma dayEntries_absent day l :
  ~ In day (days l) -> dayEntries day l = [].
Proof.
  intros Hd. unfold dayEntries.
  induction l as [|e l IH]; [reflexivity|].
  cbn. destruct (String.eqb (dateOnly e) day) eqn:E.
  - exfalso. apply Hd, days_In. exists e. split; [now left|].
    now apply String.eqb_eq.
  - apply IH. intros Hin. apply Hd. apply days_In in Hin.
    destruct Hin as [x [Hx Hday]]. apply days_In. exists x.
    split; [now right | exact Hday].
Qed.

Lemma dayEntries_flat_map {A} day (g : A -> list (Entry N)) (ks : list A) :
  dayEntries day (flat_map g ks)
  = flat_map (fun k => dayEntries day (g k)) ks.
Proof. unfold dayEntries. apply filter_flat_map. Qed.

(** The entries of the days [ks], day after day. *)
Lemma dayEntries_of_days day l (ks : list string) :
  NoDup ks -> (forall d, In d ks <-> In d (days l)) ->
  dayEntries day (flat_map (fun k => dayEntries k l) ks) = dayEntries day l.
Proof.
  intros Hnd Hks. rewrite dayEntries_flat_map.
  rewrite (flat_map_ext _ (fun k => if String.eqb k day
                                    then dayEntries day l else []))
    by (intros k; apply dayEntries_twice).
  rewrite flat_map_single by exact Hnd.
  destruct (existsb (String.eqb day) ks) eqn:E; [reflexivity|].
  symmetry. apply dayEntries_absent.
  apply existsb_eqb_not_In in E. now rewrite <- Hks.
Qed.

Lemma dayEntries_cons e l k :
  dayEntries k (e :: l)
  = if String.eqb (dateOnly e) k then e :: dayEntries k l
    else dayEntries k l.
Proof. reflexivity. Qed.

Lemma flat_map_dayEntries_other e l (ks : list string) :
  ~ In (dateOnly e) ks ->
  flat_map (fun k => dayEntries k (e :: l)) ks
  = flat_map (fun k => dayEntries k l) ks.
Proof.
  induction ks as [|k ks IH]; [reflexivity|].
  intros Hno. cbn [flat_map]. rewrite dayEntries_cons.
  rewrite IH by (intros Hin; apply Hno; now right).
  destruct (String.eqb (dateOnly e) k) eqn:E; [|reflexivity].
  apply String.eqb_eq in E. subst k. exfalso. apply Hno. now left.
Qed.

Lemma flat_map_dayEntries_cons e l (ks : list string) :
  NoDup ks -> In (dateOnly e) ks ->
  Permutation (flat_map (fun k => dayEntries k (e :: l)) ks)
              (e :: flat_map (fun k => dayEntries k l) ks).
Proof.
  induction 1 as [|k ks Hk Hnd IH]; [intros []|].
  intros Hin. cbn [flat_map]. rewrite dayEntries_cons.
  destruct (String.eqb (dateOnly e) k) eqn:E.
  - apply String.eqb_eq in E. subst k.
    now rewrite flat_map_dayEntries_other.
  - destruct Hin as [-> | Hin]; [now rewrite String.eqb_refl in E|].
    rewrite (IH Hin). symmetry. apply Permutation_middle.
Qed.

(** The entries of all days are the collection, in another order. *)
Lemma flat_map_dayEntries_perm l (ks : list string) :
  NoDup ks -> (forall e, In e l -> In (dateOnly e) ks) ->
  Permutation (flat_map (fun k => dayEntries k l) ks) l.
Proof.
  intros Hnd. induction l as [|e l IH]; intros Hks.
  - clear. induction ks as [|k ks IH]; [reflexivity | exact IH].
  - rewrite flat_map_dayEntries_cons; [|exact Hnd|apply Hks; now left].
    constructor. apply IH. intros x Hx. apply Hks. now right.
Qed.

Lemma sorted_days_NoDup l : NoDup (sort descendingCmp (days l)).
Proof.
  apply (Permutation_NoDup (Permutation_sym (sort_perm _ _))).
  apply firsts_NoDup.
Qed.

Lemma sorted_days_In l day :
  In day (sort descendingCmp (days l)) <-> In day (days l).
Proof.
  split; apply Permutation_in;
    [apply sort_perm | apply Permutation_sym, sort_perm].
Qed.

Lemma flat_map_entries_reports l :
  flat_map entries (groupEntriesByDate l)
  = flat_map (fun k => dayEntries k l) (sort descendingCmp (days l)).
Proof.
  rewrite groupEntriesByDate_tabulated, flat_map_concat_map, map_map.
  rewrite <- flat_map_concat_map. apply flat_map_ext.
  intros day. apply reportOf_entries.
Qed.
End ReportsOfACollection.

Section ReportsOfACollectionMore.
Context {N : Type} `{Num N}.
Import Reports ByDay.
Implicit Types (l es : list (Entry N)) (e : Entry N).
Implicit Types (r : DailyReport N).

Lemma Forall_groupEntriesByDate (P : DailyReport N -> Prop) l :
  (forall day, In day (days l) -> P (reportOf day l)) ->
  Forall P (groupEntriesByDate l).
Proof.
  intros HP. apply Forall_forall. intros r Hr.
  apply in_groupEntriesByDate in Hr. destruct Hr as [day [Hd ->]]. auto.
Qed.

Lemma addKey_again (d : string) (ks : list string) :
  (forall k, In k ks -> k = d) -> fold_left addKey ks [d] = [d].
Proof.
  induction ks as [|k ks IH]; [reflexivity|]. intros Hall.
  cbn [fold_left]. rewrite (Hall k (or_introl eq_refl)).
  unfold addKey at 2. cbn [existsb]. rewrite String.eqb_refl. cbn [orb].
  apply IH. intros x Hx. apply Hall. now right.
Qed.

Lemma firsts_constant (d : string) (ks : list string) :
  ks <> [] -> (forall k, In k ks -> k = d) -> firsts ks = [d].
Proof.
  destruct ks as [|k ks]; [contradiction|]. intros _ Hall.
  unfold firsts. cbn [fold_left]. rewrite (Hall k (or_introl eq_refl)).
  change (addKey [] d) with [d].
  apply addKey_again. intros x Hx. apply Hall. now right.
Qed.

Lemma days_of_a_day day l :
  In day (days l) -> days (dayEntries day l) = [day].
Proof.
  intros Hd. unfold days. apply firsts_constant.
  - apply days_In in Hd. destruct Hd as [e [He Hday]].
    intros Hnil.
    assert (Hin : In (dateOnly e) (map dateOnly (dayEntries day l))).
    { apply in_map. apply filter_In. split; [exact He|].
      now apply String.eqb_eq. }
    rewrite Hnil in Hin. contradiction.
  - intros k Hk. apply in_map_iff in Hk. destruct Hk as [e [<- He]].
    apply filter_In in He. now apply String.eqb_eq.
Qed.

Lemma reportOf_of_a_day day l :
  reportOf day (dayEntries day l) = reportOf day l.
Proof.
  unfold reportOf. now rewrite dayEntries_twice, String.eqb_refl.
Qed.

Lemma groupEntriesByDate_nil_iff l : groupEntriesByDate l = [] <-> l = [].
Proof.
  split; [|intros ->; reflexivity].
  intros Hnil. destruct l as [|e l]; [reflexivity|]. exfalso.
  assert (Hin : In (dateOnly e) (map date (groupEntriesByDate (e :: l)))).
  { rewrite groupEntriesByDate_dates. apply sorted_days_In, days_In.
    exists e. split; [now left | reflexivity]. }
  rewrite Hnil in Hin. contradiction.
Qed.
End ReportsOfACollectionMore.



(** X3: in every arithmetic the totals of a report are the sums, from 0
    and from left to right, of the worker counts and of the costs of the
    entries the report lists. *)
Theorem report_totals_are_sums_over_its_entries
    (N : Type) (num : Num N) (entries : list (Reports.Entry N)) :
  Forall
    (fun r =>
       Reports.totalWorkers r
       = fold_left (fun sum e => nadd sum (Reports.num_workers e))
           (Reports.entries r) nzero
       /\ Reports.totalCost r
          = fold_left (fun sum e => nadd sum (Reports.entryTotalCost e))
              (Reports.entries r) nzero)
    (Reports.groupEntriesByDate entries).
Proof.
  apply Forall_groupEntriesByDate. intros day _.
  rewrite reportOf_entries. unfold ByDay.reportOf.
  now rewrite accumulate_totalWorkers, accumulate_totalCost.
Qed.

(** X4: the subtotals of a report have distinct names, one for each
    category of its entries, and the subtotal of a category holds the sums,
    from its first entry on, of the worker counts and of the costs of the
    entries of the report in that category. *)
Theorem report_subtotals_by_category
    (N : Type) (num : Num N) (entries : list (Reports.Entry N)) :
  Forall
    (fun r =>
       NoDup (map Reports.name (Reports.categories r))
       /\ (forall cat, In cat (map Reports.name (Reports.categories r))
                       <-> In cat (map Reports.category (Reports.entries r)))
       /\ Forall
            (fun c =>
               let mine :=
                 filter (fun e => String.eqb (Reports.category e)
                                    (Reports.name c)) (Reports.entries r) in
               Reports.workers c = ByDay.sum1 (map Reports.num_workers mine)
               /\ Reports.cost c
                  = ByDay.sum1 (map Reports.entryTotalCost mine))
            (Reports.categories r))
    (Reports.groupEntriesByDate entries).
Proof.
  apply Forall_groupEntriesByDate. intros day _.
  rewrite reportOf_entries, reportOf_categories, catTotals_tabulated.
  rewrite map_map. cbn [Reports.name ByDay.catTotalOf]. rewrite map_id.
  split; [apply firsts_NoDup|]. split; [intros cat; apply firsts_In|].
  apply Forall_forall. intros c Hc. apply in_map_iff in Hc.
  destruct Hc as [cat [<- _]]. cbn. split; reflexivity.
Qed.

(** X6: the report of a day does not depend on the entries of the other
    days: grouping the entries of the day of a report alone gives that
    report and no other. *)
Theorem report_of_a_day_ignores_other_days
    (N : Type) (num : Num N) (entries : list (Reports.Entry N)) :
  Forall
    (fun r =>
       Reports.groupEntriesByDate
         (filter (fun e => String.eqb (Reports.dateOnly e) (Reports.date r))
            entries)
       = [r])
    (Reports.groupEntriesByDate entries).
Proof.
  apply Forall_groupEntriesByDate. intros day Hday.
  rewrite reportOf_date. fold (ByDay.dayEntries day entries).
  rewrite groupEntriesByDate_tabulated, (days_of_a_day day entries Hday).
  cbn. now rewrite reportOf_of_a_day.
Qed.

(** X7: grouping the entries of the reports again gives the same reports,
    in every arithmetic: the entries of a day keep their order. *)
Theorem regrouping_the_reports_entries
    (N : Type) (num : Num N) (entries : list (Reports.Entry N)) :
  Reports.groupEntriesByDate
    (flat_map Reports.entries (Reports.groupEntriesByDate entries))
  = Reports.groupEntriesByDate entries.
Proof.
  rewrite flat_map_entries_reports.
  set (again := flat_map (fun k => ByDay.dayEntries k entries)
                  (sort descendingCmp (ByDay.days entries))).
  assert (Hp : Permutation again entries).
  { apply flat_map_dayEntries_perm.
    - apply sorted_days_NoDup.
    - intros e He. apply sorted_days_In, days_In. now exists e. }
  rewrite !groupEntriesByDate_tabulated.
  rewrite (sorted_days_perm again entries Hp).
  apply map_ext. intros day. unfold ByDay.reportOf. f_equal.
  apply dayEntries_of_days; [apply sorted_days_NoDup|].
  intros d. apply sorted_days_In.
Qed.



(** ** Subtotals and totals in exact arithmetic *)

Section ExactSubtotals.
Import Reports ByDay.
Local Open Scope Qc_scope.

Lemma bumpCategory_sums cat (w c : Qc) (cs : list (CategoryTotal Qc)) :
  find (fun x => String.eqb (name x) cat) cs <> None ->
  sumQc (map workers (bumpCategory cat w c cs))
  = sumQc (map workers cs) + w
  /\ sumQc (map cost (bumpCategory cat w c cs)) = sumQc (map cost cs) + c.
Proof.
  unfold sumQc. induction cs as [|x cs IH]; [intros Hf; now contradiction Hf|].
  cbn [find bumpCategory]. destruct (String.eqb (name x) cat).
  - intros _. cbn [map fold_right workers cost].
    change (@nadd Qc ExactNumber) with Qcplus. split; ring.
  - intros Hf. destruct (IH Hf) as [Hw Hc].
    cbn [map fold_right]. rewrite Hw, Hc. split; ring.
Qed.

Lemma addCategoryTotal_sums (e : Entry Qc) (t : Qc)
    (cs : list (CategoryTotal Qc)) :
  sumQc (map workers (addCategoryTotal e t cs))
  = sumQc (map workers cs) + num_workers e
  /\ sumQc (map cost (addCategoryTotal e t cs)) = sumQc (map cost cs) + t.
Proof.
  unfold addCategoryTotal.
  destruct (find _ cs) eqn:Hf.
  - apply bumpCategory_sums. rewrite Hf. discriminate.
  - unfold sumQc. rewrite !map_app, !fold_right_app.
    cbn [map fold_right workers cost].
    generalize (num_workers e). clear. intros w.
    split.
    + induction cs as [|x cs IH]; cbn [map fold_right]; [ring|].
      rewrite IH. ring.
    + induction cs as [|x cs IH]; cbn [map fold_right]; [ring|].
      rewrite IH. ring.
Qed.

Lemma accumulate_subtotals (es : list (Entry Qc)) :
  forall r : DailyReport Qc,
    sumQc (map workers (categories r)) = totalWorkers r ->
    sumQc (map cost (categories r)) = totalCost r ->
    sumQc (map workers (categories (accumulate r es)))
    = totalWorkers (accumulate r es)
    /\ sumQc (map cost (categories (accumulate r es)))
       = totalCost (accumulate r es).
Proof.
  induction es as [|e es IH]; intros r Hw Hc; [now split|].
  cbn [accumulate fold_left]. apply IH; cbn [categories addToReport
    totalWorkers totalCost];
    destruct (addCategoryTotal_sums e (entryTotalCost e) (categories r))
      as [Hw' Hc'].
  - rewrite Hw', Hw. reflexivity.
  - rewrite Hc', Hc. reflexivity.
Qed.
End ExactSubtotals.

(** X5: in exact arithmetic the subtotals of a report add up to its
    totals: the worker counts of its categories to [totalWorkers], their
    costs to [totalCost]. *)
Theorem subtotals_add_up_to_the_totals (entries : list (Reports.Entry Qc)) :
  Forall
    (fun r =>
       sumQc (map Reports.workers (Reports.categories r))
       = Reports.totalWorkers r
       /\ sumQc (map Reports.cost (Reports.categories r))
          = Reports.totalCost r)
    (Reports.groupEntriesByDate entries).
Proof.
  apply Forall_groupEntriesByDate. intros day _.
  unfold ByDay.reportOf. apply accumulate_subtotals; reflexivity.
Qed.

(** ** The truncated date *)

Section DateOnly.

Lemma item0_split_prefix (sep : ascii) (s : string) :
  String.prefix (item0 (split sep s)) s = true.
Proof.
  induction s as [|c s IH]; [reflexivity|].
  cbn [split]. destruct (Ascii.eqb c sep); [reflexivity|].
  destruct (split sep s) as [|piece pieces]; cbn [item0 hd String.prefix] in *;
    destruct (ascii_dec c c) as [_ | Hc]; try contradiction; exact IH.
Qed.

Lemma item0_split_no_separator (sep : ascii) (s : string) :
  ~ In sep (list_ascii_of_string (item0 (split sep s))).
Proof.
  induction s as [|c s IH]; [intros []|].
  cbn [split]. destruct (Ascii.eqb c sep) eqn:E; [intros []|].
  apply Ascii.eqb_neq in E.
  destruct (split sep s) as [|piece pieces];
    cbn [item0 hd list_ascii_of_string In] in *; intuition congruence.
Qed.

Lemma item0_split_empty (sep : ascii) (s : string) :
  item0 (split sep s) = EmptyString ->
  s = EmptyString \/ exists rest, s = String sep rest.
Proof.
  destruct s as [|c s]; [now left|].
  cbn [split]. destruct (Ascii.eqb c sep) eqn:E.
  - apply Ascii.eqb_eq in E. subst. right. now exists s.
  - destruct (split sep s); discriminate.
Qed.

Lemma item0_split_fixed (sep : ascii) (s : string) :
  item0 (split sep (item0 (split sep s))) = item0 (split sep s).
Proof.
  rewrite (split_without_separator sep (item0 (split sep s)));
    [reflexivity | apply item0_split_no_separator].
Qed.

Lemma orString_prefix (a b s : string) :
  String.prefix a s = true -> String.prefix b s = true ->
  String.prefix (orString a b) s = true.
Proof. destruct a; auto. Qed.
End DateOnly.

(** X8: the key of an entry is a prefix of its stored date, and
    truncating a truncated date changes nothing: an entry stored under its
    own key falls in the same group. *)
Theorem dateOnly_prefix_and_idempotent
    (N : Type) (num : Num N) (entry : Reports.Entry N) :
  String.prefix (Reports.dateOnly entry) (Reports.entry_date entry) = true
  /\ Reports.dateOnly (withDate (Reports.dateOnly entry) entry)
     = Reports.dateOnly entry.
Proof.
  split.
  - apply orString_prefix; apply item0_split_prefix.
  - unfold Reports.dateOnly at 1 3. cbn [Reports.entry_date withDate].
    unfold Reports.dateOnly.
    set (s := Reports.entry_date entry).
    destruct (item0 (split "T" s)) as [|c p] eqn:E1.
    + cbn [orString].
      rewrite (item0_split_fixed " " s).
      destruct (item0_split_empty _ _ E1) as [Hs | [rest Hs]].
      * rewrite Hs. reflexivity.
      * rewrite Hs. cbn [split].
        change (Ascii.eqb "T" " ") with false. cbv iota.
        destruct (split " " rest); reflexivity.
    + cbn [orString]. rewrite <- E1, item0_split_fixed, E1. reflexivity.
Qed.

(** ** The spreadsheet export and the fetch *)

Section SheetRows.
Context {N : Type} `{Num N} (round : N -> N).
Import Reports ByDay ReportsScreen.

Lemma map_flat_map_rows {A B C} (f : B -> C) (g : A -> list B) (l : list A) :
  map f (flat_map g l) = flat_map (fun x => map f (g x)) l.
Proof.
  induction l as [|x l IH]; [reflexivity|].
  cbn. now rewrite map_app, IH.
Qed.

Lemma orText_not_empty (a : option string) (b : string) :
  b <> EmptyString -> orText a b <> EmptyString.
Proof. destruct a as [[|c s]|]; cbn; auto. discriminate. Qed.

(** The rows of the reports of a collection: a row for each entry of each
    day, dated with the key of the entry. *)
Lemma downloadExcel_of_reports (l : list (Entry N)) :
  downloadExcel round (groupEntriesByDate l)
  = map (fun e => sheetRow round (dateOnly e) e)
      (flat_map entries (groupEntriesByDate l)).
Proof.
  unfold downloadExcel. rewrite map_flat_map_rows.
  rewrite groupEntriesByDate_tabulated, !flat_map_concat_map, !map_map.
  f_equal. apply map_ext. intros day.
  rewrite reportOf_date, reportOf_entries.
  apply map_ext_in. intros e He. apply filter_In in He.
  destruct He as [_ He]. apply String.eqb_eq in He. now rewrite He.
Qed.
End SheetRows.



(** ** The draft list of the entry form *)

Section DraftList.
Context {N : Type} `{Num N} `{NumLiterals N}.
Import EntryForm.
Implicit Types (st : State N).

Lemma setEntries_same st : DraftSession.setEntries (entries st) st = st.
Proof. now destruct st. Qed.

Lemma filter_all {A} (p : A -> bool) (l : list A) :
  (forall x, In x l -> p x = true) -> filter p l = l.
Proof.
  induction l as [|x l IH]; [reflexivity|]. intros Hall.
  cbn. rewrite (Hall x (or_introl eq_refl)), IH; [reflexivity|].
  intros y Hy. apply Hall. now right.
Qed.

Lemma filter_shorter {A} (p : A -> bool) (l : list A) :
  (exists x, In x l /\ p x = false) ->
  (List.length (filter p l) < List.length l)%nat.
Proof.
  intros [x [Hx Hp]]. induction l as [|y l IH]; [contradiction|].
  cbn. pose proof (filter_length_le p l) as Hle.
  destruct Hx as [-> | Hx].
  - rewrite Hp. lia.
  - specialize (IH Hx). destruct (p y); cbn; lia.
Qed.

Lemma setEntries_twice (a b : list (WorkerEntry N)) st :
  DraftSession.setEntries a (DraftSession.setEntries b st)
  = DraftSession.setEntries a st.
Proof. reflexivity. Qed.

Lemma removeEntry_entries target st :
  entries (DraftSession.removeEntry target st)
  = filter (fun e => negb (String.eqb (id e) target)) (entries st).
Proof. reflexivity. Qed.

Lemma filter_exchange {A} (p q : A -> bool) (l : list A) :
  filter p (filter q l) = filter q (filter p l).
Proof.
  induction l as [|x l IH]; [reflexivity|].
  cbn. destruct (q x) eqn:Eq, (p x) eqn:Ep; cbn;
    rewrite ?Eq, ?Ep, IH; reflexivity.
Qed.

Lemma addEntry_selected now st selected :
  cur_category (currentEntry st) <> "" ->
  find (fun cat => String.eqb (Category.id cat)
                     (cur_category (currentEntry st)))
    (workerCategories st) = Some selected ->
  DraftSession.addEntry now st
  = (DraftSession.setCurrentEntry DraftSession.blankEntry
       (DraftSession.setEntries
          (entries st
           ++ [DraftSession.newEntry now (currentEntry st) selected]) st),
     [Notify {| title := "Entry added";
                description :=
                  (Category.name selected ++ " workers added.")%string;
                destructive := false |}]).
Proof.
  intros Hc Hf. unfold DraftSession.addEntry. rewrite Hf.
  destruct (cur_category (currentEntry st)); [contradiction | reflexivity].
Qed.
End DraftList.

(** X12: [addEntry] changes nothing when no category is selected or when
    the selected identifier is not the identifier of a category of the
    list; in the first case it shows an error, in the second it shows
    nothing. *)
Theorem addEntry_needs_a_listed_category
    (N : Type) (num : Num N) (lits : NumLiterals N)
    (now : string) (st : EntryForm.State N) :
  (forall cat, In cat (EntryForm.workerCategories st) ->
               Category.id cat
               <> EntryForm.cur_category (EntryForm.currentEntry st)) ->
  fst (DraftSession.addEntry now st) = st
  /\ EntryForm.notifications (snd (DraftSession.addEntry now st))
     = match EntryForm.cur_category (EntryForm.currentEntry st) with
       | EmptyString =>
           [{| title := "Category required";
               description := "Please select a worker category.";
               destructive := true |}]
       | _ => []
       end.
Proof.
  intros Hnone. unfold DraftSession.addEntry.
  destruct (EntryForm.cur_category (EntryForm.currentEntry st)) as [|c s] eqn:E;
    [split; reflexivity|].
  destruct (find _ (EntryForm.workerCategories st)) as [selected|] eqn:Hf;
    [|split; reflexivity].
  apply find_some in Hf. destruct Hf as [Hin Heq].
  apply String.eqb_eq in Heq. exfalso. exact (Hnone selected Hin Heq).
Qed.

(** [addEntry_needs_a_listed_category] on the form with a category chosen
    that the list does not have. *)
Lemma addEntry_needs_a_listed_category_witness :
  fst (DraftSession.addEntry "1748772000000" (formWith "cat-9"))
  = formWith "cat-9"
  /\ EntryForm.notifications
       (snd (DraftSession.addEntry "1748772000000" (formWith "cat-9"))) = [].
Proof.
  apply (addEntry_needs_a_listed_category float _ _ "1748772000000"
           (formWith "cat-9")).
  intros cat Hin E. vm_compute in Hin. destruct Hin as [<- | []].
  vm_compute in E. discriminate E.
Defined.

(** X13: with a listed category selected, [addEntry] puts one draft at the
    end of the list and leaves the earlier drafts as they were; the draft
    has the timestamp for identifier, the rate of the category and the cost
    [calculateCost] gives for the hours, the worker count and the multiplier
    of the category; the line being edited is reset; and, in every
    arithmetic, each running total is the total before plus the figure of
    the new draft. *)
Theorem addEntry_appends_a_costed_draft
    (N : Type) (num : Num N) (lits : NumLiterals N)
    (now : string) (st : EntryForm.State N)
    (selected : Category.WorkerCategory N) :
  EntryForm.cur_category (EntryForm.currentEntry st) <> "" ->
  find (fun cat => String.eqb (Category.id cat)
                     (EntryForm.cur_category (EntryForm.currentEntry st)))
    (EntryForm.workerCategories st) = Some selected ->
  let cur := EntryForm.currentEntry st in
  let after := fst (DraftSession.addEntry now st) in
  let cost :=
    EntryForm.calculateCost (EntryForm.cur_normalHours cur)
      (EntryForm.cur_overtimeHours cur) (EntryForm.cur_workerCount cur)
      (Category.hourly_rate selected)
      (Category.overtime_multiplier selected) in
  (exists draft,
      EntryForm.entries after = EntryForm.entries st ++ [draft]
      /\ EntryForm.id draft = now
      /\ EntryForm.rate draft = Category.hourly_rate selected
      /\ EntryForm.workerCount draft = EntryForm.cur_workerCount cur
      /\ EntryForm.totalCost draft = cost)
  /\ EntryForm.currentEntry after = DraftSession.blankEntry
  /\ DraftSession.totalWorkers after
     = nadd (DraftSession.totalWorkers st) (EntryForm.cur_workerCount cur)
  /\ DraftSession.totalCost after = nadd (DraftSession.totalCost st) cost.
Proof.
  intros Hc Hf cur after cost. subst after.
  rewrite (addEntry_selected now st selected Hc Hf). cbn [fst].
  split; [|split; [|split]].
  - eexists. split; [reflexivity|]. repeat split.
  - reflexivity.
  - unfold DraftSession.totalWorkers. cbn. now rewrite fold_left_app.
  - unfold DraftSession.totalCost. cbn. now rewrite fold_left_app.
Qed.

(** [addEntry_appends_a_costed_draft] on the form with the category
    "cat-1" chosen: 8 normal and 2 overtime hours, 3 workers, rate 100 and
    multiplier 2 cost 3600. *)
Lemma addEntry_appends_a_costed_draft_witness :
  DraftSession.totalCost
    (fst (DraftSession.addEntry "1748772000000" (formWith "cat-1")))
  = 3600%float.
Proof.
  destruct (addEntry_appends_a_costed_draft float _ _ "1748772000000"
              (formWith "cat-1") masonCategory) as (_ & _ & _ & Hcost).
  - intro E. vm_compute in E. discriminate E.
  - reflexivity.
  - rewrite Hcost. vm_compute. reflexivity.
Defined.

(** X14: [removeEntry] removes every draft that has the identifier, and
    only those: the drafts that remain are the drafts with another
    identifier; removing an identifier no draft has changes nothing;
    removing twice is removing once; and two removals can be exchanged. *)
Theorem removeEntry_removes_the_drafts_with_the_identifier
    (N : Type) (num : Num N) (lits : NumLiterals N)
    (target other : string) (st : EntryForm.State N) :
  (forall e, In e (EntryForm.entries (DraftSession.removeEntry target st))
             <-> In e (EntryForm.entries st) /\ EntryForm.id e <> target)
  /\ ((forall e, In e (EntryForm.entries st) -> EntryForm.id e <> target) ->
      DraftSession.removeEntry target st = st)
  /\ DraftSession.removeEntry target (DraftSession.removeEntry target st)
     = DraftSession.removeEntry target st
  /\ DraftSession.removeEntry target (DraftSession.removeEntry other st)
     = DraftSession.removeEntry other (DraftSession.removeEntry target st).
Proof.
  split; [|split; [|split]].
  - intros e. unfold DraftSession.removeEntry. cbn [EntryForm.entries
      DraftSession.setEntries]. rewrite filter_In.
    destruct (String.eqb_spec (EntryForm.id e) target) as [E | E];
      cbn; intuition congruence.
  - intros Hnone. unfold DraftSession.removeEntry.
    rewrite filter_all; [apply setEntries_same|].
    intros e He. apply negb_true_iff, String.eqb_neq. now apply Hnone.
  - unfold DraftSession.removeEntry at 1. rewrite removeEntry_entries.
    unfold DraftSession.removeEntry. rewrite setEntries_twice. f_equal.
    apply filter_all. intros e He. apply filter_In in He. apply He.
  - unfold DraftSession.removeEntry at 1 3. rewrite !removeEntry_entries.
    unfold DraftSession.removeEntry. rewrite !setEntries_twice. f_equal.
    apply filter_exchange.
Qed.

(** X15: adding a draft and removing it by its identifier gives back the
    draft list when no earlier draft has that identifier; when an earlier
    draft has it (two drafts added within one millisecond), the removal
    takes that draft too and the list is shorter than before the
    addition. *)
Theorem addEntry_then_removeEntry
    (N : Type) (num : Num N) (lits : NumLiterals N)
    (now : string) (st : EntryForm.State N)
    (selected : Category.WorkerCategory N) :
  EntryForm.cur_category (EntryForm.currentEntry st) <> "" ->
  find (fun cat => String.eqb (Category.id cat)
                     (EntryForm.cur_category (EntryForm.currentEntry st)))
    (EntryForm.workerCategories st) = Some selected ->
  let after :=
    DraftSession.removeEntry now (fst (DraftSession.addEntry now st)) in
  ((forall e, In e (EntryForm.entries st) -> EntryForm.id e <> now) ->
   EntryForm.entries after = EntryForm.entries st)
  /\ ((exists e, In e (EntryForm.entries st) /\ EntryForm.id e = now) ->
      (List.length (EntryForm.entries after)
       < List.length (EntryForm.entries st))%nat).
Proof.
  intros Hc Hf after. subst after.
  rewrite (addEntry_selected now st selected Hc Hf).
  unfold DraftSession.removeEntry. cbn.
  rewrite filter_app. cbn. rewrite String.eqb_refl. cbn.
  rewrite app_nil_r. split.
  - intros Hfresh. apply filter_all. intros e He.
    apply negb_true_iff, String.eqb_neq. now apply Hfresh.
  - intros [e [He Hid]]. apply filter_shorter. exists e.
    split; [exact He|]. rewrite Hid, String.eqb_refl. reflexivity.
Qed.

(** [addEntry_then_removeEntry] on the form with no draft. *)
Lemma addEntry_then_removeEntry_witness :
  EntryForm.entries
    (DraftSession.removeEntry "1748772000000"
       (fst (DraftSession.addEntry "1748772000000" (formWith "cat-1"))))
  = [].
Proof.
  destruct (addEntry_then_removeEntry float _ _ "1748772000000"
              (formWith "cat-1") masonCategory) as [Hfresh _].
  - intro E. vm_compute in E. discriminate E.
  - reflexivity.
  - apply Hfresh. intros e [].
Defined.

Section DraftInvariant.
Import EntryForm.

(** What the handlers keep true of the line being edited and of the
    drafts: a worker count that is neither zero nor [NaN], hours that are
    not [NaN]. *)
Lemma orDefault_not_nan (parsed d : float) :
  PrimFloat.is_nan d = false ->
  PrimFloat.is_nan (orDefault (Some parsed) d) = false.
Proof.
  intros Hd. cbn. destruct (float_truthy parsed) eqn:E; [|exact Hd].
  now apply float_truthy_not_nan.
Qed.

Lemma orDefault_truthy (parsed d : float) :
  float_truthy d = true -> float_truthy (orDefault (Some parsed) d) = true.
Proof. intros Hd. cbn. now destruct (float_truthy parsed) eqn:E. Qed.

Lemma saveDaily_keeps_or_clears {N} `{Num N} (backend : Backend N)
    (st : State N) :
  fst (saveDaily backend st) = st
  \/ fst (saveDaily backend st) = DraftSession.setEntries [] st.
Proof.
  unfold saveDaily, DraftSession.setEntries.
  destruct (siteId st); [now left|].
  destruct (entries st); [now left|].
  destruct (userError (getUser backend)), (user (getUser backend));
    try (now left).
  destruct (insert backend _); [now left | now right].
Qed.

Lemma draft_invariant (st : State float) :
  DraftSession.Reachable st ->
  (float_truthy (cur_workerCount (currentEntry st)) = true
   /\ PrimFloat.is_nan (cur_normalHours (currentEntry st)) = false
   /\ PrimFloat.is_nan (cur_overtimeHours (currentEntry st)) = false)
  /\ Forall
       (fun e => float_truthy (workerCount e) = true
                 /\ PrimFloat.is_nan (normalHours e) = false
                 /\ PrimFloat.is_nan (overtimeHours e) = false)
       (entries st).
Proof.
  induction 1 as [today | v st _ IH | v st _ IH | v st _ IH
                  | parsed st _ IH | parsed st _ IH | parsed st _ IH
                  | data error st _ IH | now st _ IH | target st _ IH
                  | backend st _ IH];
    try exact IH.
  - repeat split; constructor.
  - destruct IH as [(Hw & Hn & Ho) Hall]. repeat split; trivial.
    now apply orDefault_not_nan.
  - destruct IH as [(Hw & Hn & Ho) Hall]. repeat split; trivial.
    now apply orDefault_not_nan.
  - destruct IH as [(Hw & Hn & Ho) Hall]. repeat split; trivial.
    now apply orDefault_truthy.
  - destruct error; exact IH.
  - unfold DraftSession.addEntry.
    destruct (cur_category (currentEntry st)); [exact IH|].
    destruct (find _ (workerCategories st)); [|exact IH].
    destruct IH as [Hcur Hall]. cbn. split; [repeat split|].
    apply Forall_app. split; [exact Hall|]. constructor; [exact Hcur|].
    constructor.
  - destruct IH as [Hcur Hall]. split; [exact Hcur|].
    cbn. apply Forall_forall. intros e He. apply filter_In in He.
    rewrite Forall_forall in Hall. now apply Hall.
  - destruct (saveDaily_keeps_or_clears backend st) as [-> | ->];
      [exact IH | split; [apply IH | constructor]].
Qed.
End DraftInvariant.

(** X16: in every state the entry form can reach, every draft has a worker
    count that is neither zero nor [NaN] and hours that are not [NaN]: the
    number inputs store [parseInt(..) || 1] and [parseInt(..) || 0]. *)
Theorem drafts_have_workers_and_hours (st : EntryForm.State float) :
  DraftSession.Reachable st ->
  Forall
    (fun e =>
       PrimFloat.is_zero (EntryForm.workerCount e) = false
       /\ PrimFloat.is_nan (EntryForm.workerCount e) = false
       /\ PrimFloat.is_nan (EntryForm.normalHours e) = false
       /\ PrimFloat.is_nan (EntryForm.overtimeHours e) = false)
    (EntryForm.entries st).
Proof.
  intros Hreach. destruct (draft_invariant st Hreach) as [_ Hall].
  eapply Forall_impl; [|exact Hall].
  intros e (Hw & Hn & Ho). unfold float_truthy in Hw.
  apply negb_true_iff, orb_false_iff in Hw. tauto.
Qed.

(** [drafts_have_workers_and_hours] on the form after an entry was added
    with the worker count typed as 0, which the input stores as 1. *)
Lemma drafts_have_workers_and_hours_witness :
  let st :=
    fst (DraftSession.addEntry "1748772000000"
           (DraftSession.onWorkerCountChange 0%float (formWith "cat-1"))) in
  map EntryForm.workerCount (EntryForm.entries st) = [1%float]
  /\ Forall
       (fun e => PrimFloat.is_zero (EntryForm.workerCount e) = false)
       (EntryForm.entries st).
Proof.
  intros st. split; [vm_compute; reflexivity|].
  eapply Forall_impl;
    [|apply (drafts_have_workers_and_hours st)].
  - intros e He. apply He.
  - unfold st, formWith.
    repeat first
      [ apply DraftSession.reach_add
      | apply DraftSession.reach_workers
      | apply DraftSession.reach_overtime
      | apply DraftSession.reach_category
      | apply DraftSession.reach_fetched
      | apply DraftSession.reach_mount ].
Defined.

(** ** From the entry form to the report *)

Section SavedRows.
Import EntryForm.

Lemma Qc_product_zero (a b c d : Qc) :
  (a * b * c * d = 0 <-> a = 0 \/ b = 0 \/ c = 0 \/ d = 0)%Qc.
Proof.
  split.
  - intros E. apply Qcmult_integral in E. destruct E as [E | E]; [|tauto].
    apply Qcmult_integral in E. destruct E as [E | E]; [|tauto].
    apply Qcmult_integral in E. tauto.
  - intros [-> | [-> | [-> | ->]]]; ring.
Qed.

Lemma Qc_minus_zero (a b : Qc) : (a - b = 0 <-> a = b)%Qc.
Proof.
  split; [|intros ->; ring]. intros E.
  replace a with ((a - b) + b)%Qc by ring. rewrite E. ring.
Qed.
End SavedRows.

(** X17: [saveDaily] writes the cost of a draft and no multiplier, and the
    report screen costs the row again.  Read back without a multiplier, the
    row of a draft added from a category is costed with 1.5 whatever the
    multiplier of the category; in exact arithmetic that cost is the
    [total_cost] written exactly when the rate, the overtime hours or the
    worker count is 0 or the multiplier of the category is 1.5. *)
Theorem report_costs_a_saved_draft_with_1_5 :
  (forall (N : Type) (num : Num N) (lits : NumLiterals N)
          (st : EntryForm.State N) (u : EntryForm.User) (now : string)
          (cur : EntryForm.CurrentEntry N)
          (selected : Category.WorkerCategory N),
      Reports.entryTotalCost
        (DraftSession.asEntry None
           (EntryForm.formatRow st u (DraftSession.newEntry now cur selected)))
      = Reports.calculateTotalCost (Category.hourly_rate selected)
          (EntryForm.cur_normalHours cur) (EntryForm.cur_overtimeHours cur)
          (Some lit_1_5) (EntryForm.cur_workerCount cur))
  /\ (forall (st : EntryForm.State Qc) (u : EntryForm.User) (now : string)
             (cur : EntryForm.CurrentEntry Qc)
             (selected : Category.WorkerCategory Qc),
         let row :=
           EntryForm.formatRow st u (DraftSession.newEntry now cur selected) in
         Reports.entryTotalCost (DraftSession.asEntry None row)
         = EntryForm.total_cost row
         <-> (Category.hourly_rate selected = Q2Qc 0
              \/ EntryForm.cur_overtimeHours cur = Q2Qc 0
              \/ EntryForm.cur_workerCount cur = Q2Qc 0
              \/ Category.overtime_multiplier selected = Q2Qc (3 # 2))).
Proof.
  split; [reflexivity|].
  intros st u now cur selected row. subst row.
  set (r := Category.hourly_rate selected).
  set (m := Category.overtime_multiplier selected).
  set (nh := EntryForm.cur_normalHours cur).
  set (oh := EntryForm.cur_overtimeHours cur).
  set (wc := EntryForm.cur_workerCount cur).
  change (Reports.entryTotalCost _)
    with (Reports.calculateTotalCost r nh oh (Some (Q2Qc (3 # 2))) wc).
  change (EntryForm.total_cost _) with (EntryForm.calculateCost nh oh wc r m).
  rewrite calculateCost_exact, calculateTotalCost_unfold.
  change (@nadd Qc ExactNumber) with Qcplus.
  change (@nmul Qc ExactNumber) with Qcmult.
  rewrite <- (Qc_minus_zero m (Q2Qc (3 # 2))).
  rewrite <- (Qc_product_zero r oh wc (m - Q2Qc (3 # 2))%Qc).
  set (h := Q2Qc (3 # 2)).
  split; intros E.
  - replace (r * oh * wc * (m - h))%Qc
      with ((r * nh * wc + r * oh * m * wc)
            - (r * nh * wc + r * oh * h * wc))%Qc by ring.
    rewrite E. ring.
  - apply Qc_minus_zero.
    replace ((r * nh * wc + r * oh * h * wc)
             - (r * nh * wc + r * oh * m * wc))%Qc
      with (- (r * oh * wc * (m - h)))%Qc by ring.
    rewrite E. ring.
Qed.

Section SavedBatch.
Context {N : Type} `{Num N}.
Import EntryForm.

Lemma fold_left_over_map {A B C} (g : C -> B -> C) (f : A -> B)
    (l : list A) (a : C) :
  fold_left g (map f l) a = fold_left (fun acc x => g acc (f x)) l a.
Proof.
  revert a. induction l as [|x l IH]; intros a; [reflexivity|].
  cbn. apply IH.
Qed.
End SavedBatch.



(** ** Creating and editing categories *)

Section CategoryDrafts.
Context {N : Type} `{Num N}.
Import CategoryManager.

(** No handler of the form sets the multiplier of the draft: it is the
    [1.5] of the initial draft and of the reset. *)
Lemma draft_multiplier (st : State N) :
  Reachable st -> overtime_multiplier (newCategory st) = lit_1_5.
Proof.
  induction 1 as [| v st _ IH | v st _ IH | parsed st _ IH
                  | data st _ IH | v st _ IH | backend st _ IH];
    try exact IH; try reflexivity.
  unfold addCategory.
  destruct (draftRejected (newCategory st)); [exact IH|].
  destruct (backend _); [exact IH | reflexivity].
Qed.

Lemma addCategory_success_resets (backend : Backend N) (st : State N) :
  In FetchCategories (snd (addCategory backend st)) ->
  newCategory (fst (addCategory backend st)) = emptyDraft.
Proof.
  unfold addCategory.
  destruct (draftRejected (newCategory st)).
  - cbn. intros [E | []]. discriminate E.
  - destruct (backend _); cbn.
    + intros [E | [E | []]]; discriminate E.
    + reflexivity.
Qed.
End CategoryDrafts.

(** X19: every row the form of the category manager sends to the store
    has the multiplier 1.5 and is active: the form has no input for the
    multiplier. *)
Theorem created_categories_have_multiplier_1_5
    (N : Type) (num : Num N)
    (backend : CategoryManager.Backend N) (st : CategoryManager.State N) :
  CategoryManager.Reachable st ->
  Forall
    (Forall (fun row =>
               CategoryManager.row_overtime_multiplier row = lit_1_5
               /\ CategoryManager.row_is_active row = true))
    (CategoryManager.inserts (snd (CategoryManager.addCategory backend st))).
Proof.
  intros Hreach. unfold CategoryManager.addCategory.
  destruct (CategoryManager.draftRejected (CategoryManager.newCategory st));
    [constructor|].
  destruct (backend _); cbn; repeat constructor;
    cbn; now apply draft_multiplier.
Qed.

(** [created_categories_have_multiplier_1_5] on the draft "Mason" at the
    rate 100. *)
Lemma created_categories_have_multiplier_1_5_witness :
  CategoryManager.inserts
    (snd (CategoryManager.addCategory (fun _ => None) masonDraft))
  = [[{| CategoryManager.row_name := "Mason";
         CategoryManager.row_short_code := "M";
         CategoryManager.row_hourly_rate := 100%float;
         CategoryManager.row_overtime_multiplier := 1.5%float;
         CategoryManager.row_is_active := true |}]]
  /\ Forall
       (Forall (fun row =>
                  CategoryManager.row_overtime_multiplier row = 1.5%float
                  /\ CategoryManager.row_is_active row = true))
       (CategoryManager.inserts
          (snd (CategoryManager.addCategory (fun _ => None) masonDraft))).
Proof.
  split; [vm_compute; reflexivity|].
  exact (created_categories_have_multiplier_1_5 float JSNumber
           (fun _ => None) masonDraft
           (CategoryManager.reach_hourly_rate _ _
              (CategoryManager.reach_short_code _ _
                 (CategoryManager.reach_name _ _
                    CategoryManager.reach_initial)))).
Defined.

(** X20: after an [addCategory] that succeeded (it asks for the list
    again), the draft is empty, so calling [addCategory] again before
    anything is typed is rejected: the validation message and no second
    insert, whatever the store would answer. *)
Theorem addCategory_again_is_rejected
    (N : Type) (num : Num N)
    (backend again : CategoryManager.Backend N)
    (st : CategoryManager.State N) :
  In CategoryManager.FetchCategories
    (snd (CategoryManager.addCategory backend st)) ->
  CategoryManager.addCategory again
    (fst (CategoryManager.addCategory backend st))
  = (fst (CategoryManager.addCategory backend st),
     [CategoryManager.Notify CategoryManager.validationToast]).
Proof.
  intros Hok. apply addCategory_rejected.
  now rewrite (addCategory_success_resets backend st Hok).
Qed.

(** [addCategory_again_is_rejected] on the draft "Mason" at the rate
    100, sent twice. *)
Lemma addCategory_again_is_rejected_witness :
  CategoryManager.inserts
    (snd (CategoryManager.addCategory (fun _ => None)
            (fst (CategoryManager.addCategory (fun _ => None) masonDraft))))
  = [].
Proof.
  rewrite (addCategory_again_is_rejected float _ (fun _ => None)
             (fun _ => None) masonDraft).
  - reflexivity.
  - vm_compute. right. right. left. reflexivity.
Defined.

(** X21: [addCategory] rejects no draft that meets the requirement: in
    every state the component can reach, a draft with a name, a short code
    and a strictly positive hourly rate is sent to the store as one row with
    the fields of the draft. *)
Theorem addCategory_sends_a_well_formed_draft
    (backend : CategoryManager.Backend float)
    (st : CategoryManager.State float) :
  CategoryManager.Reachable st ->
  CategoryManager.wellFormedDraft (CategoryManager.newCategory st) = true ->
  CategoryManager.inserts (snd (CategoryManager.addCategory backend st))
  = [[{| CategoryManager.row_name :=
           CategoryManager.name (CategoryManager.newCategory st);
         CategoryManager.row_short_code :=
           CategoryManager.short_code (CategoryManager.newCategory st);
         CategoryManager.row_hourly_rate :=
           CategoryManager.hourly_rate (CategoryManager.newCategory st);
         CategoryManager.row_overtime_multiplier :=
           CategoryManager.overtime_multiplier
             (CategoryManager.newCategory st);
         CategoryManager.row_is_active := true |}]].
Proof.
  intros Hreach Hok. unfold CategoryManager.addCategory.
  rewrite draftRejected_not_wellFormed by now apply hourly_rate_not_nan.
  rewrite Hok. cbn [negb]. destruct (backend _); reflexivity.
Qed.

(** [addCategory_sends_a_well_formed_draft] on the draft "Mason" at the
    rate 100, with a store that answers with an error. *)
Lemma addCategory_sends_a_well_formed_draft_witness :
  List.length
    (CategoryManager.inserts
       (snd (CategoryManager.addCategory
               (fun _ => Some {| message := "duplicate key" |}) masonDraft)))
  = 1%nat.
Proof.
  rewrite (addCategory_sends_a_well_formed_draft
             (fun _ => Some {| message := "duplicate key" |}) masonDraft).
  - reflexivity.
  - unfold masonDraft.
    apply CategoryManager.reach_hourly_rate, CategoryManager.reach_short_code,
          CategoryManager.reach_name, CategoryManager.reach_initial.
  - vm_compute. reflexivity.
Defined.

Section CategoryEdits.
Import CategoryManager.

Lemma updateCategory_sent {N} `{Num N} (backend : CategoryEdit.Backend N)
    target updates (st : State N) :
  CategoryEdit.updatesSent
    (snd (CategoryEdit.updateCategory backend target updates st))
  = [(target, updates)].
Proof.
  unfold CategoryEdit.updateCategory.
  destruct (backend target updates); reflexivity.
Qed.
End CategoryEdits.

(** X22: an edit of the hourly rate is not validated: for every parsed
    input one update is sent for the category, with a rate that is never
    [NaN] and that is the parsed number when it is not [NaN], so also when
    it is zero or negative (a rate [addCategory] would reject). *)
Theorem edit_of_the_rate_is_sent_unvalidated
    (backend : CategoryEdit.Backend float) (target : string)
    (parsed : float) (st : CategoryManager.State float) :
  exists sent,
    CategoryEdit.updatesSent
      (snd (CategoryEdit.onEditHourlyRate backend target parsed st))
    = [(target,
        {| CategoryEdit.set_hourly_rate := Some sent;
           CategoryEdit.set_overtime_multiplier := None;
           CategoryEdit.set_is_active := None |})]
    /\ PrimFloat.is_nan sent = false
    /\ (PrimFloat.is_nan parsed = false -> PrimFloat.eqb parsed sent = true).
Proof.
  exists (orDefault (Some parsed) 0%float).
  split; [apply updateCategory_sent|]. split.
  - now apply orDefault_not_nan.
  - intros Hnan. cbn. unfold float_truthy. rewrite Hnan, orb_false_r.
    destruct (PrimFloat.is_zero parsed) eqn:Hz; cbn.
    + exact Hz.
    + unfold PrimFloat.is_nan in Hnan. now apply negb_false_iff in Hnan.
Qed.

(** X23: an edit of the multiplier never sends zero nor [NaN]: an input
    that parses to one of them sends 1.5. *)
Theorem edit_of_the_multiplier_is_never_falsy
    (backend : CategoryEdit.Backend float) (target : string)
    (parsed : float) (st : CategoryManager.State float) :
  exists sent,
    CategoryEdit.updatesSent
      (snd (CategoryEdit.onEditMultiplier backend target parsed st))
    = [(target,
        {| CategoryEdit.set_hourly_rate := None;
           CategoryEdit.set_overtime_multiplier := Some sent;
           CategoryEdit.set_is_active := None |})]
    /\ PrimFloat.is_zero sent = false
    /\ PrimFloat.is_nan sent = false
    /\ (float_truthy parsed = false -> sent = 1.5%float).
Proof.
  exists (orDefault (Some parsed) 1.5%float).
  split; [apply updateCategory_sent|].
  assert (Ht : float_truthy (orDefault (Some parsed) 1.5%float) = true)
    by now apply orDefault_truthy.
  unfold float_truthy in Ht at 1.
  apply negb_true_iff, orb_false_iff in Ht.
  repeat split; try apply Ht.
  intros Hp. cbn. now rewrite Hp.
Qed.

(** X24: every update that succeeds (an edit of the rate or of the
    multiplier, a toggle of the active flag) leaves no category in edit
    mode, whichever was being edited, and asks for the list again; an update
    that fails changes nothing and does not ask for the list.  A toggle
    sends the negation of the current flag and no other field. *)
Theorem update_outcomes
    (N : Type) (num : Num N)
    (backend : CategoryEdit.Backend N) (target : string)
    (updates : CategoryEdit.Updates N) (current : bool)
    (st : CategoryManager.State N) :
  let result := CategoryEdit.updateCategory backend target updates st in
  (backend target updates = None ->
     CategoryManager.editingId (fst result) = None
     /\ CategoryManager.categories (fst result) = CategoryManager.categories st
     /\ CategoryManager.newCategory (fst result)
        = CategoryManager.newCategory st
     /\ In CategoryEdit.FetchCategories (snd result))
  /\ (backend target updates <> None ->
      fst result = st /\ ~ In CategoryEdit.FetchCategories (snd result))
  /\ CategoryEdit.updatesSent
       (snd (CategoryEdit.toggleActive backend target current st))
     = [(target,
         {| CategoryEdit.set_hourly_rate := None;
            CategoryEdit.set_overtime_multiplier := None;
            CategoryEdit.set_is_active := Some (negb current) |})].
Proof.
  intros result. subst result. unfold CategoryEdit.toggleActive.
  rewrite updateCategory_sent. unfold CategoryEdit.updateCategory.
  destruct (backend target updates) as [error|]; cbn.
  - split; [discriminate|]. split; [|reflexivity].
    intros _. split; [reflexivity|].
    intros [E | [E | []]]; discriminate E.
  - split; [|split; [congruence | reflexivity]].
    intros _. repeat split. right. right. now left.
Qed.
